(** * The game session engine of the quiz server

    A shallow embedding of [backend/internal/service/game.go] (the session
    state machine: phases, countdown, scoring, leaderboard, broadcast) and of
    the part of the network service it calls into (tag table, encoder,
    [SendPacket]).

    - Go's [int] is a 64-bit two's complement integer: it is a [Z] and every
      arithmetic operation of the source is followed by [wrap64].
    - [Players []*Player] is a slice of pointers. Players live in a store
      [mem] addressed by [ptr]; the roster is a list of addresses, so the
      in-place sort of the roster and the writes through [player *Player]
      are the writes of the source.
    - Methods on [*Game] run in a state monad over [Sys] whose failure is a
      Go run-time panic (an index out of range).
    - What the source takes from libraries is a parameter of the development:
      [json.Marshal], [json.Unmarshal], the connection's [WriteMessage],
      [sort.Slice], [primitive.ObjectIDFromHex] and the quiz service.
    - The network service registers games of the package [game], which is
      not among the sources: what it uses of that package is a parameter
      as well.
    - The session mutex is taken and released within one call everywhere; in
      this sequential model it has no effect and is left out. The timer
      goroutine is the repeated call of [Tick]. *)

From Stdlib Require Import ZArith List String Bool Lia Permutation Sorted.
From Stdlib Require Import Init.Byte.
Import ListNotations.
Local Open Scope Z_scope.

(** ** Machine integers *)

Definition wrap64 (z : Z) : Z := (z + 2 ^ 63) mod 2 ^ 64 - 2 ^ 63.
Definition add64 (a b : Z) : Z := wrap64 (a + b).
Definition sub64 (a b : Z) : Z := wrap64 (a - b).
Definition mul64 (a b : Z) : Z := wrap64 (a * b).

(** [len(s)] of a slice, as an [int]. *)
Definition len {A : Type} (l : list A) : Z := Z.of_nat (List.length l).

(** ** Data *)

Definition uuid := Z.
Definition Conn := nat.
Definition ptr := nat.
Definition Bytes := list byte.

(** A Go [error] value: [None] is [nil]. *)
Definition error := option string.

Inductive GameState : Set :=
| LobbyState | PlayState | IntermissionState | RevealState | EndState.

(** Modelled from the spec: the package [entity] (the quiz definition) is
    imported by the source and is not part of it. A quiz is an ordered
    sequence of questions; a question has a time limit and an ordered list of
    choices, each flagged correct or not. These are the fields [game.go]
    reads: [Questions], [Time], [Choices], [Correct]. *)
Module entity.
Record QuizChoice : Set := mkChoice { Correct : bool }.
Record QuizQuestion : Set := mkQuestion { Time : Z; Choices : list QuizChoice }.
Record Quiz : Set := mkQuiz { Questions : list QuizQuestion }.
End entity.

Module Player.
Record t : Set := mk {
  Id : uuid;
  Name : string;
  Connection : Conn;
  Points : Z;
  LastAwardedPoints : Z;
  Answered : bool
}.
Definition set_Points (v : Z) (p : t) : t :=
  mk (Id p) (Name p) (Connection p) v (LastAwardedPoints p) (Answered p).
Definition set_LastAwardedPoints (v : Z) (p : t) : t :=
  mk (Id p) (Name p) (Connection p) (Points p) v (Answered p).
Definition set_Answered (v : bool) (p : t) : t :=
  mk (Id p) (Name p) (Connection p) (Points p) (LastAwardedPoints p) v.
End Player.

Module LeaderboardEntry.
Record t : Set := mk { Name : string; Points : Z }.
End LeaderboardEntry.

(** The values passed as [packet any]. [ConnectPacket], [HostGamePacket] and
    [QuestionShowPacket] are declared in the source; the other six are built
    and sent by [game.go] with the one field shown. *)
Inductive Packet : Set :=
| QuestionShowPacket (Question : entity.QuizQuestion)
| ConnectPacket (Code Name : string)
| HostGamePacket (QuizId : string)
| ChangeGameStatePacket (State : GameState)
| PlayerJoinPacket (Player : Player.t)
| PlayerDisconnectPacket (PlayerId : uuid)
| PlayerRevealPacket (Points : Z)
| LeaderboardPacket (Points : list LeaderboardEntry.t)
| TickPacket (Tick : Z).

(** The address of a packet struct, as [&ConnectPacket{}] yields it. Held
    in an [any] it is a value of a pointer type, not of the struct type:
    the type switch of [packetToPacketId], whose cases are struct types,
    has no case for it, and the type switch of [OnIncomingMessage], whose
    cases are pointer types, has. *)
Inductive PacketPtr : Set :=
| PtrTo (packet : Packet).

Module Game.
Record t : Set := mk {
  Id : uuid;
  Quiz : entity.Quiz;
  CurrentQuestion : Z;
  Code : string;
  Players : list ptr;
  Ended : bool;
  Time : Z;
  Host : Conn;
  State : GameState
}.
Definition set_CurrentQuestion (v : Z) (g : t) : t :=
  mk (Id g) (Quiz g) v (Code g) (Players g) (Ended g) (Time g) (Host g) (State g).
Definition set_Players (v : list ptr) (g : t) : t :=
  mk (Id g) (Quiz g) (CurrentQuestion g) (Code g) v (Ended g) (Time g) (Host g) (State g).
Definition set_Ended (v : bool) (g : t) : t :=
  mk (Id g) (Quiz g) (CurrentQuestion g) (Code g) (Players g) v (Time g) (Host g) (State g).
Definition set_Time (v : Z) (g : t) : t :=
  mk (Id g) (Quiz g) (CurrentQuestion g) (Code g) (Players g) (Ended g) v (Host g) (State g).
Definition set_State (v : GameState) (g : t) : t :=
  mk (Id g) (Quiz g) (CurrentQuestion g) (Code g) (Players g) (Ended g) (Time g) (Host g) v.
End Game.

(** ** The state of the system

    [game] is the [Game] struct, [mem] the store of the [Player] structs the
    roster points to, and [sent] the calls of [WriteMessage] made so far, in
    order, each with the connection and the bytes written. *)
Definition Write : Set := (Conn * Bytes)%type.

Record Sys : Type := mkSys {
  game : Game.t;
  mem : ptr -> Player.t;
  sent : list Write
}.

Definition set_game (g : Game.t) (s : Sys) : Sys := mkSys g (mem s) (sent s).
Definition set_mem (m : ptr -> Player.t) (s : Sys) : Sys := mkSys (game s) m (sent s).
Definition set_sent (w : list Write) (s : Sys) : Sys := mkSys (game s) (mem s) w.

Definition upd (m : ptr -> Player.t) (p : ptr) (v : Player.t) : ptr -> Player.t :=
  fun q => if Nat.eqb q p then v else m q.

(** ** State and panic monad *)

Inductive outcome (A : Type) : Type :=
| Ok (a : A)
| Panic (msg : string).
Arguments Ok {A} a.
Arguments Panic {A} msg.

Definition M (A : Type) : Type := Sys -> outcome (A * Sys).

Definition ret {A : Type} (a : A) : M A := fun s => Ok (a, s).

Definition bind {A B : Type} (c : M A) (k : A -> M B) : M B :=
  fun s => match c s with
           | Ok (a, s') => k a s'
           | Panic msg => Panic msg
           end.

Declare Scope go_scope.
Delimit Scope go_scope with go.
Notation "x <- c ;; k" := (bind c (fun x => k))
  (at level 61, c at next level, right associativity) : go_scope.
Notation "c ;; k" := (bind c (fun _ => k))
  (at level 61, right associativity) : go_scope.
Local Open Scope go_scope.

Definition panic {A : Type} (msg : string) : M A := fun _ => Panic msg.
Definition getGame : M Game.t := fun s => Ok (game s, s).
Definition modifyGame (f : Game.t -> Game.t) : M unit :=
  fun s => Ok (tt, set_game (f (game s)) s).
Definition load (p : ptr) : M Player.t := fun s => Ok (mem s p, s).
Definition modifyPlayer (p : ptr) (f : Player.t -> Player.t) : M unit :=
  fun s => Ok (tt, set_mem (upd (mem s) p (f (mem s p))) s).
Definition store (p : ptr) (v : Player.t) : M unit :=
  fun s => Ok (tt, set_mem (upd (mem s) p v) s).

(** [for _, x := range l { body }] *)
Fixpoint for_range {A : Type} (l : list A) (body : A -> M unit) : M unit :=
  match l with
  | [] => ret tt
  | x :: l' => body x ;; for_range l' body
  end.

(** [s[i]] on a slice: a run-time panic when [i] is out of range. *)
Definition index {A : Type} (l : list A) (i : Z) : M A :=
  if (i <? 0) || (len l <=? i) then panic "index out of range"%string
  else match nth_error l (Z.to_nat i) with
       | Some x => ret x
       | None => panic "index out of range"%string
       end.

(** ** A new session *)

(** [newGame]. The identifier and the join code are drawn at random by
    [uuid.New] and [generateCode]: they are arguments here. *)
Definition newGame (id : uuid) (code : string) (quiz : entity.Quiz) (host : Conn) : Game.t :=
  Game.mk id quiz (-1) code [] false 60 host LobbyState.

(** ** A concrete environment

    Used to run the engine on explicit sessions. [insertionSort] is the
    insertion sort [sort.Slice] runs on a slice of at most twelve elements:
    each element in turn moves left while it compares less than its left
    neighbour. The prefix sorted so far is kept reversed. *)

Fixpoint sink (less : ptr -> ptr -> bool) (x : ptr) (revPrefix : list ptr) : list ptr :=
  match revPrefix with
  | [] => [x]
  | y :: r => if less x y then y :: sink less x r else x :: y :: r
  end.

Definition insertionSort (less : ptr -> ptr -> bool) (l : list ptr) : list ptr :=
  rev (fold_left (fun acc x => sink less x acc) l []).

(** A serializer that yields an empty payload and never fails. *)
Definition marshalEmpty (_ : Packet) : Bytes * error := ([], None).

(** Every write succeeds. *)
Definition writeOk (_ : list Write) (_ : Conn) (_ : Bytes) : error := None.

(** Writes to connection [broken] fail, all others succeed. *)
Definition writeExcept (broken : Conn) (_ : list Write) (c : Conn) (_ : Bytes) : error :=
  if Nat.eqb c broken then Some "write: broken pipe"%string else None.

(** A quiz of two questions of ten seconds each; choice 0 is the correct one
    of the first, choice 1 of the second. *)
Definition quiz2 : entity.Quiz :=
  entity.mkQuiz
    [ entity.mkQuestion 10 [entity.mkChoice true; entity.mkChoice false];
      entity.mkQuestion 10 [entity.mkChoice false; entity.mkChoice true] ].

(** The zero value of [Player] with a name and a connection, as
    [OnPlayerJoin] builds it. *)
Definition joined (id : uuid) (name : string) (connection : Conn) : Player.t :=
  Player.mk id name connection 0 0 false.

(** Two players, at addresses 0 and 1, on connections 10 and 11; the host is
    on connection 99. *)
Definition mem2 : ptr -> Player.t :=
  fun p => match p with
           | O => joined 100 "ann" 10%nat
           | _ => joined 101 "bob" 11%nat
           end.

(** The same two players once bob has 100 points. *)
Definition mem2Scored : ptr -> Player.t :=
  upd mem2 1%nat (Player.set_Points 100 (mem2 1%nat)).

(** The same two players once bob has answered. *)
Definition mem2BobAnswered : ptr -> Player.t :=
  upd mem2 1%nat (Player.set_Answered true (mem2 1%nat)).

(** A store in which nothing has been allocated yet. *)
Definition memEmpty : ptr -> Player.t :=
  fun _ => Player.mk 0 "" 0%nat 0 0 false.

(** The session of [quiz2] as the host has just created it. *)
Definition lobby : Sys :=
  mkSys (newGame 1 "123456" quiz2 99%nat) memEmpty [].

(** The session of [quiz2] in the Play phase of its first question with
    [time] seconds left and the roster [players]. *)
Definition gamePlaying (time : Z) (players : list ptr) : Game.t :=
  Game.mk 1 quiz2 0 "123456" players false time 99%nat PlayState.

Definition playing (time : Z) (players : list ptr) (m : ptr -> Player.t) : Sys :=
  mkSys (gamePlaying time players) m [].

(** The session of [quiz2] in Intermission after its first question, one
    second before the next one. *)
Definition gameIntermission (players : list ptr) : Game.t :=
  Game.mk 1 quiz2 0 "123456" players false 1 99%nat IntermissionState.

(** A decoder that fails on an empty payload and otherwise reads the join
    code 123456 and the name ann into a connect packet, and the quiz
    identifier q1 into a host packet. *)
Definition unmarshalSample (data : Bytes) (packet : PacketPtr) : PacketPtr * error :=
  match data with
  | [] => (packet, Some "unexpected end of JSON input"%string)
  | _ =>
      (match packet with
       | PtrTo (ConnectPacket _ _) => PtrTo (ConnectPacket "123456" "ann")
       | PtrTo (HostGamePacket _) => PtrTo (HostGamePacket "q1")
       | other => other
       end, None)
  end.

(** Every identifier parses, and the quiz service knows [quiz2] alone. *)
Definition objectIdSample (_ : string) : Bytes * error := ([], None).

Definition quizLookupSample (_ : Bytes) : option entity.Quiz * error :=
  (Some quiz2, None).

(** A stand-in for the games of the package the network service uses: a
    join code and the names of those who joined. A join adds the name and
    writes one byte to the connection. *)
Definition gameSample : Set := (string * list string)%type.

Definition gameCodeSample (g : gameSample) : string := fst g.

Definition gameNewSample (_ : entity.Quiz) (_ : Conn) : gameSample :=
  ("123456"%string, []).

Definition joinSample (name : string) (con : Conn) (g : gameSample)
    (w : list Write) : outcome (gameSample * list Write) :=
  Ok ((fst g, snd g ++ [name]), w ++ [(con, [x00])]).

(** [after c s P]: the computation [c] run from [s] does not panic, and its
    result and final state satisfy [P]. *)
Definition after {A : Type} (c : M A) (s : Sys) (P : A -> Sys -> Prop) : Prop :=
  match c s with
  | Ok (a, s') => P a s'
  | Panic _ => False
  end.

(** ** The network service and the game *)

Section Engine.

(** [json.Marshal]: the bytes and the error it returns. *)
Variable json_Marshal : Packet -> Bytes * error.

(** [connection.WriteMessage(websocket.BinaryMessage, bytes)]: its result
    may depend on everything written before. *)
Variable WriteMessage : list Write -> Conn -> Bytes -> error.

(** [sort.Slice] on the roster, given the comparison on its elements. *)
Variable sort_Slice : (ptr -> ptr -> bool) -> list ptr -> list ptr.

Definition packetToPacketId (packet : Packet) : byte * error :=
  match packet with
  | QuestionShowPacket _ => (x02, None)
  | ConnectPacket _ _ => (x00, None)
  | HostGamePacket _ => (x01, None)
  | _ => (x00, Some "invalid packet type"%string)
  end.

Definition PacketToBytes (packet : Packet) : Bytes * error :=
  match packetToPacketId packet with
  | (_, Some _) => ([], Some "invalid packet type"%string)
  | (packetId, None) =>
      match json_Marshal packet with
      | (_, Some err) => ([], Some err)
      | (bytes, None) => (packetId :: bytes, None)
      end
  end.

Definition SendPacket (connection : Conn) (packet : Packet) : M error :=
  fun s =>
    match PacketToBytes packet with
    | (_, Some err) => Ok (Some err, s)
    | (bytes, None) =>
        Ok (WriteMessage (sent s) connection bytes,
            set_sent (sent s ++ [(connection, bytes)]) s)
    end.

Definition ResetPlayerAnswerStates : M unit :=
  g <- getGame ;;
  for_range (Game.Players g)
    (fun player => modifyPlayer player (Player.set_Answered false)).

(** The loop of [BroadcastPacket] over the roster: it returns at the first
    error. *)
Fixpoint BroadcastPacket_players (players : list ptr) (packet : Packet) : M error :=
  match players with
  | [] => ret None
  | player :: rest =>
      pl <- load player ;;
      err <- SendPacket (Player.Connection pl) packet ;;
      match err with
      | Some e => ret (Some e)
      | None => BroadcastPacket_players rest packet
      end
  end.

Definition BroadcastPacket (packet : Packet) (includeHost : bool) : M error :=
  g <- getGame ;;
  err <- BroadcastPacket_players (Game.Players g) packet ;;
  match err with
  | Some e => ret (Some e)
  | None =>
      if includeHost then
        err <- SendPacket (Game.Host g) packet ;;
        match err with
        | Some e => ret (Some e)
        | None => ret None
        end
      else ret None
  end.

Definition ChangeState (state : GameState) : M unit :=
  modifyGame (Game.set_State state) ;;
  _ <- BroadcastPacket (ChangeGameStatePacket state) true ;;
  ret tt.

(** The comparison handed to [sort.Slice]:
    [g.Players[i].Points > g.Players[j].Points]. *)
Definition morePoints (m : ptr -> Player.t) (a b : ptr) : bool :=
  Player.Points (m b) <? Player.Points (m a).

Definition entryOf (m : ptr -> Player.t) (player : ptr) : LeaderboardEntry.t :=
  LeaderboardEntry.mk (Player.Name (m player)) (Player.Points (m player)).

(** The roster is sorted in place; the loop then copies the entries at
    indices [0 .. min(3, len) - 1]. [math.Min] on [3] and the length is
    exact in [float64]. *)
Definition getLeaderboard : M (list LeaderboardEntry.t) :=
  fun s =>
    let sorted := sort_Slice (morePoints (mem s)) (Game.Players (game s)) in
    let s' := set_game (Game.set_Players sorted (game s)) s in
    Ok (map (entryOf (mem s'))
            (firstn (Z.to_nat (Z.min 3 (len sorted))) sorted), s').

Definition End : M unit :=
  g <- getGame ;;
  if Game.Ended g then ret tt
  else
    modifyGame (Game.set_Ended true) ;;
    ChangeState EndState ;;
    leaderboard <- getLeaderboard ;;
    _ <- BroadcastPacket (LeaderboardPacket leaderboard) true ;;
    ret tt.

Definition getCurrentQuestion : M entity.QuizQuestion :=
  g <- getGame ;;
  index (entity.Questions (Game.Quiz g)) (Game.CurrentQuestion g).

Definition NextQuestion : M unit :=
  modifyGame (fun g => Game.set_CurrentQuestion (add64 (Game.CurrentQuestion g) 1) g) ;;
  g <- getGame ;;
  if len (entity.Questions (Game.Quiz g)) <=? Game.CurrentQuestion g then End
  else
    ResetPlayerAnswerStates ;;
    ChangeState PlayState ;;
    currentQuestion <- getCurrentQuestion ;;
    modifyGame (Game.set_Time (entity.Time currentQuestion)) ;;
    question <- getCurrentQuestion ;;
    _ <- SendPacket (Game.Host g) (QuestionShowPacket question) ;;
    ret tt.

Definition Reveal : M unit :=
  modifyGame (Game.set_Time 7) ;;
  g <- getGame ;;
  for_range (Game.Players g)
    (fun player =>
       pl <- load player ;;
       (if negb (Player.Answered pl)
        then modifyPlayer player (Player.set_LastAwardedPoints 0)
        else ret tt) ;;
       pl <- load player ;;
       _ <- SendPacket (Player.Connection pl)
              (PlayerRevealPacket (Player.LastAwardedPoints pl)) ;;
       ret tt) ;;
  ChangeState RevealState.

Definition Intermission : M unit :=
  modifyGame (Game.set_Time 30) ;;
  ChangeState IntermissionState ;;
  leaderboard <- getLeaderboard ;;
  _ <- BroadcastPacket (LeaderboardPacket leaderboard) true ;;
  ret tt.

Definition Tick : M unit :=
  modifyGame (fun g => Game.set_Time (sub64 (Game.Time g) 1) g) ;;
  g <- getGame ;;
  _ <- SendPacket (Game.Host g) (TickPacket (Game.Time g)) ;;
  if Game.Time g =? 0 then
    match Game.State g with
    | PlayState => Reveal
    | RevealState => Intermission
    | IntermissionState => NextQuestion
    | _ => ret tt
    end
  else ret tt.

(** [Start] also starts the timer goroutine, which calls [Tick] once a
    second until the session has ended: the ticks are the calls of [Tick] of
    a run. *)
Definition Start : M unit :=
  ChangeState PlayState ;;
  NextQuestion.

Definition StartOrSkip : M unit :=
  g <- getGame ;;
  match Game.State g with
  | LobbyState => Start
  | _ => NextQuestion
  end.

(** [OnPlayerJoin]. The identifier drawn by [uuid.New] and the address [addr]
    of the new [Player] struct are arguments. *)
Definition OnPlayerJoin (id : uuid) (addr : ptr) (name : string) (connection : Conn) : M unit :=
  let player := Player.mk id name connection 0 0 false in
  store addr player ;;
  modifyGame (fun g => Game.set_Players (Game.Players g ++ [addr]) g) ;;
  g <- getGame ;;
  _ <- SendPacket connection (ChangeGameStatePacket (Game.State g)) ;;
  _ <- SendPacket (Game.Host g) (PlayerJoinPacket player) ;;
  ret tt.

Definition OnPlayerDisconnect (player : ptr) : M unit :=
  g <- getGame ;;
  pl <- load player ;;
  filtered <- (fun s =>
     Ok (filter (fun p => negb (Player.Id (mem s p) =? Player.Id pl))
                (Game.Players g), s)) ;;
  modifyGame (Game.set_Players filtered) ;;
  _ <- SendPacket (Game.Host g) (PlayerDisconnectPacket (Player.Id pl)) ;;
  ret tt.

Definition getAnsweredPlayers : M (list ptr) :=
  fun s => Ok (filter (fun player => Player.Answered (mem s player))
                      (Game.Players (game s)), s).

Definition Skip : M unit :=
  g <- getGame ;;
  let currentState := Game.State g in
  for_range (Game.Players g)
    (fun player =>
       pl <- load player ;;
       if negb (Player.Answered pl)
       then modifyPlayer player (Player.set_LastAwardedPoints 0) ;;
            modifyPlayer player (Player.set_Answered true)
       else ret tt) ;;
  match currentState with
  | PlayState => Reveal
  | RevealState => Intermission
  | IntermissionState => NextQuestion
  | _ => ret tt
  end.

Definition isCorrectChoice (choiceIndex : Z) : M bool :=
  question <- getCurrentQuestion ;;
  let choices := entity.Choices question in
  if (choiceIndex <? 0) || (len choices <=? choiceIndex) then ret false
  else
    choice <- index choices choiceIndex ;;
    ret (entity.Correct choice).

(** [orderReward] is computed in [float64]: [float64(answered)] is at
    least [4.0] whenever [answered >= 4], so [math.Min] yields the exact
    value of [min(4, answered)] and the product and difference are small
    integers, converted back without loss. [1000 / 60] is a division of
    integer constants. *)
Definition getPointsReward : M Z :=
  players <- getAnsweredPlayers ;;
  g <- getGame ;;
  let answered := len players in
  let orderReward := 5000 - 1000 * Z.min 4 answered in
  let timeReward := mul64 (Game.Time g) (1000 / 60) in
  ret (add64 orderReward timeReward).

Definition OnPlayerAnswer (choice : Z) (player : ptr) : M unit :=
  correct <- isCorrectChoice choice ;;
  (if correct then
     reward <- getPointsReward ;;
     modifyPlayer player (Player.set_LastAwardedPoints reward) ;;
     modifyPlayer player
       (fun pl => Player.set_Points
                    (add64 (Player.Points pl) (Player.LastAwardedPoints pl)) pl)
   else modifyPlayer player (Player.set_LastAwardedPoints 0)) ;;
  modifyPlayer player (Player.set_Answered true) ;;
  answeredPlayers <- getAnsweredPlayers ;;
  g <- getGame ;;
  if len answeredPlayers =? len (Game.Players g) then Reveal else ret tt.

(** A run of the engine from the lobby: ann and then bob join, the host
    starts the quiz, and the timer ticks once. *)
Definition twoPlayersOneTick : M unit :=
  OnPlayerJoin 100 0%nat "ann" 10%nat ;;
  OnPlayerJoin 101 1%nat "bob" 11%nat ;;
  StartOrSkip ;;
  Tick.

(** The same run with ann alone. *)
Definition onePlayerOneTick : M unit :=
  OnPlayerJoin 100 0%nat "ann" 10%nat ;;
  StartOrSkip ;;
  Tick.

(** ** The effect of the loops on the store *)

(** One round of the loop of [Reveal] on the store. *)
Definition revealOne (m : ptr -> Player.t) (player : ptr) : ptr -> Player.t :=
  if negb (Player.Answered (m player))
  then upd m player (Player.set_LastAwardedPoints 0 (m player))
  else m.

Definition revealAll (players : list ptr) (m : ptr -> Player.t) : ptr -> Player.t :=
  fold_left revealOne players m.

(** One round of the first loop of [Skip] on the store. *)
Definition skipOne (m : ptr -> Player.t) (player : ptr) : ptr -> Player.t :=
  if negb (Player.Answered (m player))
  then let m1 := upd m player (Player.set_LastAwardedPoints 0 (m player)) in
       upd m1 player (Player.set_Answered true (m1 player))
  else m.

Definition skipAll (players : list ptr) (m : ptr -> Player.t) : ptr -> Player.t :=
  fold_left skipOne players m.

(** The store after [OnPlayerAnswer] has recorded an answer judged
    [correct], with [reward] the value of [getPointsReward]. *)
Definition recordAnswer (correct : bool) (reward : Z) (player : ptr)
    (m : ptr -> Player.t) : ptr -> Player.t :=
  let m1 :=
    if correct then
      let m' := upd m player (Player.set_LastAwardedPoints reward (m player)) in
      upd m' player
        (Player.set_Points
           (add64 (Player.Points (m' player)) (Player.LastAwardedPoints (m' player)))
           (m' player))
    else upd m player (Player.set_LastAwardedPoints 0 (m player)) in
  upd m1 player (Player.set_Answered true (m1 player)).

(** The players of the roster whose answered flag is set. *)
Definition answeredIn (m : ptr -> Player.t) (players : list ptr) : list ptr :=
  filter (fun player => Player.Answered (m player)) players.

(** The value of [getPointsReward] in a session [g] over the store [m]. *)
Definition rewardOf (g : Game.t) (m : ptr -> Player.t) : Z :=
  add64 (5000 - 1000 * Z.min 4 (len (answeredIn m (Game.Players g))))
        (mul64 (Game.Time g) (1000 / 60)).

(** Two players that differ at most in the answered flag. *)
Definition agreeButAnswered (a b : Player.t) : Prop :=
  Player.Id a = Player.Id b
  /\ Player.Name a = Player.Name b
  /\ Player.Connection a = Player.Connection b
  /\ Player.Points a = Player.Points b
  /\ Player.LastAwardedPoints a = Player.LastAwardedPoints b.

(** ** What is asked of [sort.Slice] *)

Definition pointsIn (m : ptr -> Player.t) (player : ptr) : Z :=
  Player.Points (m player).

(** A roster in which no player has more points than one before it. *)
Definition descending (m : ptr -> Player.t) (players : list ptr) : Prop :=
  StronglySorted (fun a b => pointsIn m b <= pointsIn m a) players.

(** The documented contract of [sort.Slice] for the comparison by points:
    the slice is rearranged, and afterwards ordered by the comparison. The
    order of players with equal points is not fixed by it. *)
Definition sortContract (sort : (ptr -> ptr -> bool) -> list ptr -> list ptr) : Prop :=
  forall (m : ptr -> Player.t) (l : list ptr),
    Permutation (sort (morePoints m) l) l /\ descending m (sort (morePoints m) l).

(** A sort that does not move the elements of a slice already in order. *)
Definition keepsOrdered (sort : (ptr -> ptr -> bool) -> list ptr -> list ptr) : Prop :=
  forall (m : ptr -> Player.t) (l : list ptr),
    descending m l -> sort (morePoints m) l = l.

(** Leaderboards in which the points never increase, and in which they
    always decrease. *)
Definition nonIncreasing (lb : list LeaderboardEntry.t) : Prop :=
  StronglySorted
    (fun a b => LeaderboardEntry.Points b <= LeaderboardEntry.Points a) lb.

Definition strictlyDecreasing (lb : list LeaderboardEntry.t) : Prop :=
  StronglySorted
    (fun a b => LeaderboardEntry.Points b < LeaderboardEntry.Points a) lb.

(** The packets [packetToPacketId] has no case for. *)
Definition untagged (packet : Packet) : bool :=
  match packet with
  | QuestionShowPacket _ | ConnectPacket _ _ | HostGamePacket _ => false
  | _ => true
  end.

(** The reward with sixteen points for each second left. *)
Definition rewardPerSecond (answeredBefore seconds : Z) : Z :=
  Z.max 0 (5000 - 1000 * Z.min 4 answeredBefore) + seconds * 16.

(** The reward as the specification words it: an order part that never goes
    below zero and the floor of [seconds * 1000 / 60]. *)
Definition specReward (answeredBefore seconds : Z) : Z :=
  Z.max 0 (5000 - 1000 * Z.min 4 answeredBefore) + (seconds * 1000) / 60.

(** The verdict of [isCorrectChoice] on a question. *)
Definition correctIn (question : entity.QuizQuestion) (choiceIndex : Z) : bool :=
  if (choiceIndex <? 0) || (len (entity.Choices question) <=? choiceIndex) then false
  else match nth_error (entity.Choices question) (Z.to_nat choiceIndex) with
       | Some choice => entity.Correct choice
       | None => false
       end.

(** [CurrentQuestion] is an index into the questions of the quiz. *)
Definition onQuestion (g : Game.t) : Prop :=
  0 <= Game.CurrentQuestion g < len (entity.Questions (Game.Quiz g)).

(** The reversed prefix: no player has fewer points than one before it. *)
Definition ascending (m : ptr -> Player.t) (l : list ptr) : Prop :=
  StronglySorted (fun a b => pointsIn m a <= pointsIn m b) l.

(** ** The timer, and what the transitions leave alone *)

(** The first [n] rounds of the timer goroutine that [Start] launches:
    each round returns if the session has ended and calls [Tick] otherwise
    (the sleep of one second between two rounds has no effect on the
    state). *)
Fixpoint timer (n : nat) : M unit :=
  match n with
  | O => ret tt
  | S k =>
      g <- getGame ;;
      if Game.Ended g then ret tt
      else Tick ;; timer k
  end.

(** The store after the loop of [ResetPlayerAnswerStates]. *)
Definition resetOne (m : ptr -> Player.t) (player : ptr) : ptr -> Player.t :=
  upd m player (Player.set_Answered false (m player)).

Definition resetAll (players : list ptr) (m : ptr -> Player.t) : ptr -> Player.t :=
  fold_left resetOne players m.

(** What [NextQuestion] writes when it presents [question] to the host:
    one message with tag 2, or nothing when the serializer fails. *)
Definition questionWrites (host : Conn) (question : entity.QuizQuestion) : list Write :=
  match json_Marshal (QuestionShowPacket question) with
  | (_, Some _) => []
  | (bytes, None) => [(host, x02 :: bytes)]
  end.

(** Two versions of a player with the same identity, name, connection and
    total. *)
Definition samePlayer (a b : Player.t) : Prop :=
  Player.Id a = Player.Id b
  /\ Player.Name a = Player.Name b
  /\ Player.Connection a = Player.Connection b
  /\ Player.Points a = Player.Points b.

(** A write of a question (tag 2) to the connection [host]. *)
Definition toHost (host : Conn) (w : Write) : Prop :=
  fst w = host /\ exists payload, snd w = x02 :: payload.

(** [quiet s s']: from [s] to [s'] the session keeps its identifier, quiz,
    join code and host, the roster keeps its members, every player keeps
    identity, name, connection and total, and whatever was written in
    between is a question sent to the host. *)
Definition quiet (s s' : Sys) : Prop :=
  Game.Id (game s') = Game.Id (game s)
  /\ Game.Quiz (game s') = Game.Quiz (game s)
  /\ Game.Code (game s') = Game.Code (game s)
  /\ Game.Host (game s') = Game.Host (game s)
  /\ Permutation (Game.Players (game s')) (Game.Players (game s))
  /\ (forall q, samePlayer (mem s' q) (mem s q))
  /\ exists ws, sent s' = sent s ++ ws
                /\ Forall (toHost (Game.Host (game s))) ws.

(** [proceeds c s]: the command [c] returns from [s], the step is [quiet]
    and the question index stays or moves on by one. *)
Definition proceeds (c : M unit) (s : Sys) : Prop :=
  exists s',
    c s = Ok (tt, s')
    /\ quiet s s'
    /\ Game.CurrentQuestion (game s) <= Game.CurrentQuestion (game s')
       <= Game.CurrentQuestion (game s) + 1.

(** [CurrentQuestion] is at least -1 and can be incremented without
    wrapping. *)
Definition countsQuestions (g : Game.t) : Prop :=
  -1 <= Game.CurrentQuestion g < 2 ^ 63 - 1.

(** ** The inbound side of the network service *)

(** [packetIdToPacket]: a pointer to the zero value of the struct for the
    tag, [nil] for any other tag. *)
Definition packetIdToPacket (packetId : byte) : option PacketPtr :=
  match packetId with
  | x00 => Some (PtrTo (ConnectPacket "" ""))
  | x01 => Some (PtrTo (HostGamePacket ""))
  | _ => None
  end.

(** The network service keeps games of the package
    [quiz.com/quiz/internal/game], which is not among the sources: its
    [Game] type, the [Code] field [getGameByCode] reads, and [New] and
    [OnPlayerJoin], which [OnIncomingMessage] calls, are parameters. Of
    [OnPlayerJoin] it is assumed that it acts on the game it is called on
    and on the connections: given the name, the connection, the game and
    the writes made so far it yields the game and the writes after the
    call, or panics. *)
Variable game_Game : Type.
Variable game_Code : game_Game -> string.
Variable game_New : entity.Quiz -> Conn -> game_Game.
Variable game_OnPlayerJoin :
  string -> Conn -> game_Game -> list Write -> outcome (game_Game * list Write).

(** The state of the network service: the registered games in the order of
    their creation and the writes made so far. A [*game.Game] is the
    position of the game in [games]. *)
Record Net : Type := mkNet {
  games : list game_Game;
  netSent : list Write
}.

(** [getGameByCode]: the first registered game with the code; [None] is
    [nil]. *)
Fixpoint getGameByCode (registered : list game_Game) (code : string) : option nat :=
  match registered with
  | [] => None
  | g :: rest =>
      if String.eqb (game_Code g) code then Some O
      else match getGameByCode rest code with
           | Some i => Some (S i)
           | None => None
           end
  end.

(** The registry with the game at position [i] replaced. *)
Fixpoint setGame (i : nat) (g : game_Game) (registered : list game_Game)
    : list game_Game :=
  match registered, i with
  | [], _ => []
  | _ :: rest, O => g :: rest
  | g0 :: rest, S j => g0 :: setGame j g rest
  end.

(** [game.OnPlayerJoin(name, con)] on the game at position [i]. *)
Definition joinAt (i : nat) (name : string) (con : Conn) (n : Net) : outcome Net :=
  match nth_error (games n) i with
  | None => Ok n
  | Some g =>
      match game_OnPlayerJoin name con g (netSent n) with
      | Ok (g', w') => Ok (mkNet (setGame i g' (games n)) w')
      | Panic msg => Panic msg
      end
  end.

(** [primitive.ObjectID], a value of twelve bytes. *)
Definition ObjectID := Bytes.

(** [json.Unmarshal(data, packet)]: the pointer with the struct it points
    to filled in, and the error. *)
Variable json_Unmarshal : Bytes -> PacketPtr -> PacketPtr * error.

(** [primitive.ObjectIDFromHex]. *)
Variable ObjectIDFromHex : string -> ObjectID * error.

(** [quizCollection.GetQuizById], of the quiz service: the quiz found
    ([None] is [nil]) and the error. *)
Variable GetQuizById : ObjectID -> option entity.Quiz * error.

(** [OnIncomingMessage]. The switch is on the pointer that
    [json.Unmarshal] has filled in. *)
Definition OnIncomingMessage (con : Conn) (mt : Z) (msg : Bytes) (n : Net)
    : outcome Net :=
  if len msg <? 2 then Ok n
  else
    match msg with
    | [] => Ok n
    | packetId :: data =>
        match packetIdToPacket packetId with
        | None => Ok n
        | Some packet =>
            match json_Unmarshal data packet with
            | (_, Some _) => Ok n
            | (PtrTo (ConnectPacket code name), None) =>
                match getGameByCode (games n) code with
                | None => Ok n
                | Some i => joinAt i name con n
                end
            | (PtrTo (HostGamePacket quizId), None) =>
                match ObjectIDFromHex quizId with
                | (_, Some _) => Ok n
                | (oid, None) =>
                    match GetQuizById oid with
                    | (_, Some _) => Ok n
                    | (None, None) => Ok n
                    | (Some quiz, None) =>
                        Ok (mkNet (games n ++ [game_New quiz con]) (netSent n))
                    end
                end
            | (_, None) => Ok n
            end
        end
    end.

(** ** Running the network service *)

Ltac run := unfold bind, ret, getGame, modifyGame, load, modifyPlayer, panic; simpl.

Lemma SendPacket_untagged (c : Conn) (packet : Packet) (s : Sys) :
  untagged packet = true ->
  SendPacket c packet s = Ok (Some "invalid packet type"%string, s).
Proof. destruct packet; intros H; try discriminate H; reflexivity. Qed.

Lemma BroadcastPacket_untagged (packet : Packet) (s : Sys) :
  untagged packet = true ->
  BroadcastPacket packet true s = Ok (Some "invalid packet type"%string, s).
Proof.
  intros H. unfold BroadcastPacket. run.
  destruct (Game.Players (game s)) as [|p ps]; simpl; run;
    rewrite (SendPacket_untagged _ _ _ H); reflexivity.
Qed.

Lemma ChangeState_run (state : GameState) (g : Game.t) (m : ptr -> Player.t)
    (w : list Write) :
  ChangeState state (mkSys g m w) = Ok (tt, mkSys (Game.set_State state g) m w).
Proof.
  unfold ChangeState. run. unfold set_game; simpl.
  rewrite BroadcastPacket_untagged by reflexivity. reflexivity.
Qed.

Lemma Reveal_loop (g : Game.t) (w : list Write) (players : list ptr) :
  forall m : ptr -> Player.t,
    for_range players
      (fun player =>
         pl <- load player ;;
         (if negb (Player.Answered pl)
          then modifyPlayer player (Player.set_LastAwardedPoints 0)
          else ret tt) ;;
         pl <- load player ;;
         _ <- SendPacket (Player.Connection pl)
                (PlayerRevealPacket (Player.LastAwardedPoints pl)) ;;
         ret tt) (mkSys g m w)
    = Ok (tt, mkSys g (revealAll players m) w).
Proof.
  induction players as [|p ps IH]; intros m; [reflexivity|].
  cbn [for_range revealAll fold_left]. unfold bind at 1.
  assert (E : (pl <- load p ;;
               (if negb (Player.Answered pl)
                then modifyPlayer p (Player.set_LastAwardedPoints 0)
                else ret tt) ;;
               pl0 <- load p ;;
               _ <- SendPacket (Player.Connection pl0)
                      (PlayerRevealPacket (Player.LastAwardedPoints pl0)) ;;
               ret tt) (mkSys g m w) = Ok (tt, mkSys g (revealOne m p) w)).
  { run. unfold revealOne. destruct (Player.Answered (m p)); reflexivity. }
  rewrite E. apply IH.
Qed.

Lemma Reveal_run (g : Game.t) (m : ptr -> Player.t) (w : list Write) :
  Reveal (mkSys g m w)
  = Ok (tt, mkSys (Game.set_State RevealState (Game.set_Time 7 g))
                  (revealAll (Game.Players g) m) w).
Proof.
  unfold Reveal. unfold bind at 1. unfold modifyGame, set_game; simpl.
  unfold bind at 1. unfold getGame; simpl.
  unfold bind at 1. rewrite Reveal_loop. apply ChangeState_run.
Qed.

Lemma Skip_loop (g : Game.t) (w : list Write) (players : list ptr) :
  forall m : ptr -> Player.t,
    for_range players
      (fun player =>
         pl <- load player ;;
         if negb (Player.Answered pl)
         then modifyPlayer player (Player.set_LastAwardedPoints 0) ;;
              modifyPlayer player (Player.set_Answered true)
         else ret tt) (mkSys g m w)
    = Ok (tt, mkSys g (skipAll players m) w).
Proof.
  induction players as [|p ps IH]; intros m; [reflexivity|].
  cbn [for_range skipAll fold_left]. unfold bind at 1.
  assert (E : (pl <- load p ;;
               if negb (Player.Answered pl)
               then modifyPlayer p (Player.set_LastAwardedPoints 0) ;;
                    modifyPlayer p (Player.set_Answered true)
               else ret tt) (mkSys g m w) = Ok (tt, mkSys g (skipOne m p) w)).
  { run. unfold skipOne. destruct (Player.Answered (m p)); reflexivity. }
  rewrite E. apply IH.
Qed.

Lemma Skip_run_Play (g : Game.t) (m : ptr -> Player.t) (w : list Write) :
  Game.State g = PlayState ->
  Skip (mkSys g m w) = Reveal (mkSys g (skipAll (Game.Players g) m) w).
Proof.
  intros H. unfold Skip. unfold bind at 1. unfold getGame; simpl.
  unfold bind at 1. rewrite Skip_loop. rewrite H. reflexivity.
Qed.

Lemma Tick_run_Play (g : Game.t) (m : ptr -> Player.t) (w : list Write) :
  Game.State g = PlayState ->
  Game.Time g = 1 ->
  Tick (mkSys g m w) = Reveal (mkSys (Game.set_Time 0 g) m w).
Proof.
  intros HS HT. unfold Tick. run. rewrite HT, HS. reflexivity.
Qed.

Lemma getLeaderboard_run (g : Game.t) (m : ptr -> Player.t) (w : list Write) :
  getLeaderboard (mkSys g m w)
  = let sorted := sort_Slice (morePoints m) (Game.Players g) in
    Ok (map (entryOf m) (firstn (Z.to_nat (Z.min 3 (len sorted))) sorted),
        mkSys (Game.set_Players sorted g) m w).
Proof. reflexivity. Qed.

Lemma End_ended (s : Sys) :
  Game.Ended (game s) = true -> End s = Ok (tt, s).
Proof. intros H. unfold End. run. rewrite H. reflexivity. Qed.

Lemma End_run (g : Game.t) (m : ptr -> Player.t) (w : list Write) :
  Game.Ended g = false ->
  End (mkSys g m w)
  = Ok (tt, mkSys (Game.set_Players
                     (sort_Slice (morePoints m) (Game.Players g))
                     (Game.set_State EndState (Game.set_Ended true g))) m w).
Proof.
  intros H. unfold End. unfold bind at 1. unfold getGame; simpl. rewrite H.
  unfold bind at 1. unfold modifyGame, set_game; simpl.
  unfold bind at 1. rewrite ChangeState_run.
  unfold bind at 1. rewrite getLeaderboard_run. cbv zeta.
  unfold bind at 1. rewrite BroadcastPacket_untagged by reflexivity.
  reflexivity.
Qed.

Lemma Intermission_run (g : Game.t) (m : ptr -> Player.t) (w : list Write) :
  Intermission (mkSys g m w)
  = Ok (tt, mkSys (Game.set_Players
                     (sort_Slice (morePoints m) (Game.Players g))
                     (Game.set_State IntermissionState (Game.set_Time 30 g))) m w).
Proof.
  unfold Intermission. unfold bind at 1. unfold modifyGame, set_game; simpl.
  unfold bind at 1. rewrite ChangeState_run.
  unfold bind at 1. rewrite getLeaderboard_run. cbv zeta.
  unfold bind at 1. rewrite BroadcastPacket_untagged by reflexivity.
  reflexivity.
Qed.

(** ** The store, pointwise *)

Lemma upd_same (m : ptr -> Player.t) (p : ptr) (v : Player.t) : upd m p v p = v.
Proof. unfold upd. now rewrite Nat.eqb_refl. Qed.

Lemma upd_other (m : ptr -> Player.t) (p q : ptr) (v : Player.t) :
  q <> p -> upd m p v q = m q.
Proof. intros H. unfold upd. apply Nat.eqb_neq in H. now rewrite H. Qed.

Lemma revealOne_at (m : ptr -> Player.t) (p q : ptr) :
  revealOne m p q
  = if Nat.eqb q p && negb (Player.Answered (m q))
    then Player.set_LastAwardedPoints 0 (m q) else m q.
Proof.
  unfold revealOne, upd. destruct (Nat.eqb q p) eqn:E.
  - apply Nat.eqb_eq in E; subst q.
    destruct (Player.Answered (m p)); simpl; [reflexivity|].
    now rewrite Nat.eqb_refl.
  - destruct (Player.Answered (m p)); simpl; [reflexivity|]. now rewrite E.
Qed.

Lemma revealAll_at (players : list ptr) :
  forall (m : ptr -> Player.t) (q : ptr),
    revealAll players m q
    = if existsb (Nat.eqb q) players && negb (Player.Answered (m q))
      then Player.set_LastAwardedPoints 0 (m q) else m q.
Proof.
  induction players as [|p ps IH]; intros m q; [reflexivity|].
  cbn [revealAll fold_left existsb]. fold (revealAll ps (revealOne m p)).
  rewrite IH, revealOne_at.
  destruct (Nat.eqb q p), (existsb (Nat.eqb q) ps),
    (Player.Answered (m q)) eqn:E; simpl; rewrite ?E; reflexivity.
Qed.

Lemma skipOne_at (m : ptr -> Player.t) (p q : ptr) :
  skipOne m p q
  = if Nat.eqb q p && negb (Player.Answered (m q))
    then Player.set_Answered true (Player.set_LastAwardedPoints 0 (m q))
    else m q.
Proof.
  unfold skipOne, upd. destruct (Nat.eqb q p) eqn:E.
  - apply Nat.eqb_eq in E; subst q.
    destruct (Player.Answered (m p)); simpl; [reflexivity|].
    now rewrite !Nat.eqb_refl.
  - destruct (Player.Answered (m p)); simpl; [reflexivity|]. now rewrite E.
Qed.

Lemma skipAll_at (players : list ptr) :
  forall (m : ptr -> Player.t) (q : ptr),
    skipAll players m q
    = if existsb (Nat.eqb q) players && negb (Player.Answered (m q))
      then Player.set_Answered true (Player.set_LastAwardedPoints 0 (m q))
      else m q.
Proof.
  induction players as [|p ps IH]; intros m q; [reflexivity|].
  cbn [skipAll fold_left existsb]. fold (skipAll ps (skipOne m p)).
  rewrite IH, skipOne_at.
  destruct (Nat.eqb q p), (existsb (Nat.eqb q) ps),
    (Player.Answered (m q)) eqn:E; simpl; rewrite ?E; reflexivity.
Qed.

Lemma existsb_eqb_In (q : ptr) (players : list ptr) :
  existsb (Nat.eqb q) players = true <-> In q players.
Proof.
  rewrite existsb_exists. split.
  - intros [x [Hx E]]. apply Nat.eqb_eq in E. now subst.
  - intros H. exists q. split; [assumption | apply Nat.eqb_refl].
Qed.

(** When every player of the roster has answered, the loop of [Reveal]
    leaves the store as it is. *)
Lemma revealAll_answered (players : list ptr) :
  forall m : ptr -> Player.t,
    (forall q, In q players -> Player.Answered (m q) = true) ->
    revealAll players m = m.
Proof.
  induction players as [|p ps IH]; intros m H; [reflexivity|].
  cbn [revealAll fold_left]. fold (revealAll ps (revealOne m p)).
  assert (E : revealOne m p = m).
  { unfold revealOne. now rewrite (H p (or_introl eq_refl)). }
  rewrite E. apply IH. intros q Hq. apply H. now right.
Qed.

(** ** Running the answer path *)

Lemma index_run {A : Type} (l : list A) (i : Z) (s : Sys) :
  0 <= i < len l ->
  exists x, nth_error l (Z.to_nat i) = Some x /\ index l i s = Ok (x, s).
Proof.
  intros H. unfold index, len in *.
  destruct (i <? 0) eqn:E1; [apply Z.ltb_lt in E1; lia|].
  destruct (Z.of_nat (List.length l) <=? i) eqn:E2; [apply Z.leb_le in E2; lia|].
  simpl. destruct (nth_error l (Z.to_nat i)) as [x|] eqn:E3.
  - exists x. split; reflexivity.
  - apply nth_error_None in E3. lia.
Qed.

Lemma getCurrentQuestion_run (s : Sys) :
  onQuestion (game s) ->
  exists question,
    nth_error (entity.Questions (Game.Quiz (game s)))
              (Z.to_nat (Game.CurrentQuestion (game s))) = Some question
    /\ getCurrentQuestion s = Ok (question, s).
Proof.
  intros H. unfold getCurrentQuestion. run.
  destruct (index_run _ _ s H) as [q [E1 E2]]. exists q. split; assumption.
Qed.

Lemma isCorrectChoice_run (choiceIndex : Z) (s : Sys) :
  onQuestion (game s) ->
  exists question,
    nth_error (entity.Questions (Game.Quiz (game s)))
              (Z.to_nat (Game.CurrentQuestion (game s))) = Some question
    /\ isCorrectChoice choiceIndex s = Ok (correctIn question choiceIndex, s).
Proof.
  intros H. destruct (getCurrentQuestion_run s H) as [q [E1 E2]].
  exists q. split; [assumption|].
  unfold isCorrectChoice. unfold bind at 1. rewrite E2. unfold correctIn.
  destruct ((choiceIndex <? 0) || (len (entity.Choices q) <=? choiceIndex)) eqn:G;
    [reflexivity|].
  apply orb_false_iff in G. destruct G as [G1 G2].
  apply Z.ltb_ge in G1. apply Z.leb_gt in G2.
  destruct (index_run (entity.Choices q) choiceIndex s (conj G1 G2)) as [ch [E3 E4]].
  unfold bind. rewrite E4, E3. reflexivity.
Qed.

Lemma getPointsReward_run (g : Game.t) (m : ptr -> Player.t) (w : list Write) :
  getPointsReward (mkSys g m w) = Ok (rewardOf g m, mkSys g m w).
Proof. reflexivity. Qed.

Lemma OnPlayerAnswer_run (choice : Z) (player : ptr) (correct : bool)
    (g : Game.t) (m : ptr -> Player.t) (w : list Write) :
  isCorrectChoice choice (mkSys g m w) = Ok (correct, mkSys g m w) ->
  OnPlayerAnswer choice player (mkSys g m w)
  = let m' := recordAnswer correct (rewardOf g m) player m in
    if len (answeredIn m' (Game.Players g)) =? len (Game.Players g)
    then Reveal (mkSys g m' w)
    else Ok (tt, mkSys g m' w).
Proof.
  intros H. unfold OnPlayerAnswer. unfold bind at 1. rewrite H. cbv zeta.
  set (m' := recordAnswer correct (rewardOf g m) player m).
  transitivity ((if len (answeredIn m' (Game.Players g)) =? len (Game.Players g)
                 then Reveal else ret tt) (mkSys g m' w)).
  - subst m'. destruct correct; reflexivity.
  - destruct (len (answeredIn m' (Game.Players g)) =? len (Game.Players g));
      reflexivity.
Qed.

(** All players of a roster are flagged exactly when the flagged ones are as
    many as the roster. *)
Lemma answeredIn_all (m : ptr -> Player.t) (players : list ptr) :
  len (answeredIn m players) = len players <->
  (forall q, In q players -> Player.Answered (m q) = true).
Proof.
  unfold len, answeredIn. split.
  - intros H q Hq.
    assert (L : List.length (filter (fun p => Player.Answered (m p)) players)
                = List.length players) by lia.
    clear H. induction players as [|p ps IH]; [contradiction|].
    simpl in L. destruct (Player.Answered (m p)) eqn:E.
    + simpl in L. injection L as L. destruct Hq as [->|Hq]; [assumption|].
      now apply IH.
    + pose proof (filter_length_le (fun p => Player.Answered (m p)) ps). lia.
  - intros H. f_equal. f_equal.
    induction players as [|p ps IH]; [reflexivity|].
    simpl. rewrite (H p (or_introl eq_refl)). f_equal.
    apply IH. intros q Hq. apply H. now right.
Qed.

Lemma recordAnswer_at (correct : bool) (reward : Z) (player : ptr)
    (m : ptr -> Player.t) :
  recordAnswer correct reward player m player
  = Player.mk (Player.Id (m player)) (Player.Name (m player))
      (Player.Connection (m player))
      (if correct then add64 (Player.Points (m player)) reward
       else Player.Points (m player))
      (if correct then reward else 0)
      true.
Proof.
  unfold recordAnswer. destruct correct; cbv zeta; rewrite !upd_same; reflexivity.
Qed.

Lemma recordAnswer_other (correct : bool) (reward : Z) (player q : ptr)
    (m : ptr -> Player.t) :
  q <> player -> recordAnswer correct reward player m q = m q.
Proof.
  intros H. unfold recordAnswer. destruct correct; cbv zeta;
    rewrite !(upd_other _ _ _ _ H); reflexivity.
Qed.

Lemma revealAll_keeps_answered (players : list ptr) (m : ptr -> Player.t) (q : ptr) :
  Player.Answered (m q) = true -> revealAll players m q = m q.
Proof.
  intros H. rewrite revealAll_at, H. now rewrite andb_false_r.
Qed.

(** [OnPlayerAnswer] returns whenever there is a current question, and
    this is the state it leaves. *)
Lemma OnPlayerAnswer_total (choice : Z) (player : ptr)
    (g : Game.t) (m : ptr -> Player.t) (w : list Write) :
  onQuestion g ->
  exists question,
    nth_error (entity.Questions (Game.Quiz g)) (Z.to_nat (Game.CurrentQuestion g))
      = Some question
    /\ OnPlayerAnswer choice player (mkSys g m w)
       = Ok (tt,
             let m' := recordAnswer (correctIn question choice) (rewardOf g m) player m in
             if len (answeredIn m' (Game.Players g)) =? len (Game.Players g)
             then mkSys (Game.set_State RevealState (Game.set_Time 7 g))
                        (revealAll (Game.Players g) m') w
             else mkSys g m' w).
Proof.
  intros H.
  destruct (isCorrectChoice_run choice (mkSys g m w) H) as [question [E1 E2]].
  exists question. split; [exact E1|].
  rewrite (OnPlayerAnswer_run _ _ _ _ _ _ E2). cbv zeta.
  destruct (len _ =? len _); [apply Reveal_run | reflexivity].
Qed.

Lemma OnPlayerAnswer_at_player (choice : Z) (player : ptr)
    (g : Game.t) (m : ptr -> Player.t) (w : list Write) :
  onQuestion g ->
  exists question s',
    nth_error (entity.Questions (Game.Quiz g)) (Z.to_nat (Game.CurrentQuestion g))
      = Some question
    /\ OnPlayerAnswer choice player (mkSys g m w) = Ok (tt, s')
    /\ mem s' player
       = recordAnswer (correctIn question choice) (rewardOf g m) player m player.
Proof.
  intros H.
  destruct (OnPlayerAnswer_total choice player g m w H) as [question [E1 E2]].
  exists question. eexists. split; [exact E1|]. split; [exact E2|].
  cbv zeta. destruct (len _ =? len _); cbn [mem]; [|reflexivity].
  apply revealAll_keeps_answered. now rewrite recordAnswer_at.
Qed.

Lemma wrap64_small (z : Z) : - 2 ^ 63 <= z < 2 ^ 63 -> wrap64 z = z.
Proof. intros H. unfold wrap64. rewrite Z.mod_small; lia. Qed.

Lemma len_nonneg {A : Type} (l : list A) : 0 <= len l.
Proof. unfold len. lia. Qed.

Lemma rewardOf_exact (g : Game.t) (m : ptr -> Player.t) :
  - 2 ^ 58 <= Game.Time g <= 2 ^ 58 ->
  rewardOf g m
  = rewardPerSecond (len (answeredIn m (Game.Players g))) (Game.Time g).
Proof.
  intros H. unfold rewardOf, rewardPerSecond, add64, mul64.
  pose proof (len_nonneg (answeredIn m (Game.Players g))) as L.
  change (1000 / 60) with 16.
  rewrite (wrap64_small (Game.Time g * 16)) by lia.
  rewrite wrap64_small by lia. lia.
Qed.

(** ** Scoring *)

(** C2, as the code has it: a correct answer submitted with [s] seconds left
    in a session where [n] roster players are flagged as having answered is
    awarded [max(0, 5000 - 1000 * min(4, n)) + 16 * s], the factor being the
    quotient of the integer constants [1000 / 60]; the award is stored as the
    player's last awarded points and added to the total. An incorrect answer
    is awarded 0 and leaves the total as it is. The countdown is assumed
    small enough for the 64-bit product not to wrap. *)
Theorem reward_of_answer (choice : Z) (player : ptr)
    (g : Game.t) (m : ptr -> Player.t) (w : list Write) :
  onQuestion g ->
  - 2 ^ 58 <= Game.Time g <= 2 ^ 58 ->
  exists question s',
    nth_error (entity.Questions (Game.Quiz g)) (Z.to_nat (Game.CurrentQuestion g))
      = Some question
    /\ OnPlayerAnswer choice player (mkSys g m w) = Ok (tt, s')
    /\ Player.LastAwardedPoints (mem s' player)
       = (if correctIn question choice
          then rewardPerSecond (len (answeredIn m (Game.Players g))) (Game.Time g)
          else 0)
    /\ Player.Points (mem s' player)
       = (if correctIn question choice
          then add64 (Player.Points (m player))
                 (rewardPerSecond (len (answeredIn m (Game.Players g))) (Game.Time g))
          else Player.Points (m player)).
Proof.
  intros H T.
  destruct (OnPlayerAnswer_at_player choice player g m w H)
    as [question [s' [E1 [E2 E3]]]].
  exists question, s'. split; [exact E1|]. split; [exact E2|].
  rewrite E3, recordAnswer_at, (rewardOf_exact g m T). split; reflexivity.
Qed.

(** ** Reveal as soon as everybody has answered *)

(** C9: when the submission of [player] leaves every player of the roster
    with an answer (all the others have answered before), the same call of
    [OnPlayerAnswer] returns with the session in the Reveal phase and the
    reveal countdown of 7 s, whatever the countdown was. Every player of the
    roster then has the answered flag set and holds a last award: the one
    recorded at their own answer for the others, and the reward or 0 for the
    submitting player. *)
Theorem reveal_on_last_answer (choice : Z) (player : ptr)
    (g : Game.t) (m : ptr -> Player.t) (w : list Write) :
  Game.State g = PlayState ->
  onQuestion g ->
  In player (Game.Players g) ->
  (forall q, In q (Game.Players g) -> q <> player -> Player.Answered (m q) = true) ->
  exists question s',
    nth_error (entity.Questions (Game.Quiz g)) (Z.to_nat (Game.CurrentQuestion g))
      = Some question
    /\ OnPlayerAnswer choice player (mkSys g m w) = Ok (tt, s')
    /\ Game.State (game s') = RevealState
    /\ Game.Time (game s') = 7
    /\ Game.Players (game s') = Game.Players g
    /\ (forall q, In q (Game.Players g) -> Player.Answered (mem s' q) = true)
    /\ (forall q, q <> player ->
                  Player.LastAwardedPoints (mem s' q) = Player.LastAwardedPoints (m q))
    /\ Player.LastAwardedPoints (mem s' player)
       = (if correctIn question choice then rewardOf g m else 0).
Proof.
  intros _ H _ All.
  destruct (OnPlayerAnswer_total choice player g m w H) as [question [E1 E2]].
  exists question. eexists. split; [exact E1|]. split; [exact E2|].
  cbv zeta.
  set (m' := recordAnswer (correctIn question choice) (rewardOf g m) player m).
  assert (A' : forall q, In q (Game.Players g) -> Player.Answered (m' q) = true).
  { intros q Hq. destruct (Nat.eq_dec q player) as [->|N].
    - subst m'. now rewrite recordAnswer_at.
    - subst m'. rewrite recordAnswer_other by assumption. now apply All. }
  rewrite (proj2 (answeredIn_all m' (Game.Players g)) A'), Z.eqb_refl.
  rewrite (revealAll_answered _ _ A'). cbn [game mem].
  repeat split; try reflexivity.
  - exact A'.
  - intros q N. subst m'. now rewrite recordAnswer_other.
  - subst m'. now rewrite recordAnswer_at.
Qed.

(** ** Choice indices out of range *)

(** C10: with a current question, [isCorrectChoice] returns for every
    index, negative or beyond the choices included: the guard keeps the
    access to the choice list within bounds, and an index out of range is
    judged incorrect. [OnPlayerAnswer] on such an index returns as well,
    awards 0 and leaves the player's total as it is. *)
Theorem out_of_range_choice_is_incorrect (choice : Z) (player : ptr)
    (g : Game.t) (m : ptr -> Player.t) (w : list Write) :
  onQuestion g ->
  exists question correct s',
    nth_error (entity.Questions (Game.Quiz g)) (Z.to_nat (Game.CurrentQuestion g))
      = Some question
    /\ isCorrectChoice choice (mkSys g m w) = Ok (correct, mkSys g m w)
    /\ OnPlayerAnswer choice player (mkSys g m w) = Ok (tt, s')
    /\ (choice < 0 \/ len (entity.Choices question) <= choice ->
        correct = false
        /\ Player.LastAwardedPoints (mem s' player) = 0
        /\ Player.Points (mem s' player) = Player.Points (m player)).
Proof.
  intros H.
  destruct (isCorrectChoice_run choice (mkSys g m w) H) as [question [E1 E2]].
  destruct (OnPlayerAnswer_at_player choice player g m w H)
    as [question' [s' [E1' [E3 E4]]]].
  cbn [game] in E1. rewrite E1 in E1'. injection E1' as <-.
  exists question, (correctIn question choice), s'.
  split; [exact E1|]. split; [exact E2|]. split; [exact E3|].
  intros R.
  assert (C : correctIn question choice = false).
  { unfold correctIn.
    destruct (choice <? 0) eqn:G1; [reflexivity|].
    destruct (len (entity.Choices question) <=? choice) eqn:G2; [reflexivity|].
    apply Z.ltb_ge in G1. apply Z.leb_gt in G2. lia. }
  rewrite E4, recordAnswer_at, C. repeat split.
Qed.

(** ** Skip and timeout out of Play *)

(** C5, as the code has it: from the Play phase, the host's [Skip] at any
    countdown and the timeout (the tick that finds the countdown of the
    same session at 1 and takes it to zero) both return, leave the same
    [Game] struct (Reveal phase, countdown 7, roster as it was) and write
    the same bytes; every player has the same identity, name, connection,
    total and last award in both, the last award being 0 for the players of
    the roster that had not answered. The answered flag differs: after
    [Skip] it is set for every player of the roster, after the timeout it is
    what it was. *)
Theorem skip_and_timeout_from_Play (g : Game.t) (m : ptr -> Player.t) (w : list Write) :
  Game.State g = PlayState ->
  exists g' m1 m2,
    Skip (mkSys g m w) = Ok (tt, mkSys g' m1 w)
    /\ Tick (mkSys (Game.set_Time 1 g) m w) = Ok (tt, mkSys g' m2 w)
    /\ Game.State g' = RevealState
    /\ Game.Time g' = 7
    /\ Game.Players g' = Game.Players g
    /\ (forall q, agreeButAnswered (m1 q) (m2 q))
    /\ (forall q, In q (Game.Players g) -> Player.Answered (m q) = false ->
                  Player.LastAwardedPoints (m1 q) = 0
                  /\ Player.LastAwardedPoints (m2 q) = 0)
    /\ (forall q, In q (Game.Players g) -> Player.Answered (m1 q) = true)
    /\ (forall q, Player.Answered (m2 q) = Player.Answered (m q)).
Proof.
  intros HS.
  assert (A1 : forall q, In q (Game.Players g) ->
                         Player.Answered (skipAll (Game.Players g) m q) = true).
  { intros q Hq. rewrite skipAll_at.
    rewrite (proj2 (existsb_eqb_In q (Game.Players g)) Hq).
    destruct (Player.Answered (m q)) eqn:E; simpl; [exact E | reflexivity]. }
  exists (Game.set_State RevealState (Game.set_Time 7 g)),
         (skipAll (Game.Players g) m), (revealAll (Game.Players g) m).
  split.
  { rewrite (Skip_run_Play g m w HS), Reveal_run.
    now rewrite (revealAll_answered _ _ A1). }
  split.
  { rewrite (Tick_run_Play (Game.set_Time 1 g) m w HS eq_refl), Reveal_run.
    reflexivity. }
  repeat split; try reflexivity.
  - rewrite skipAll_at, revealAll_at.
    destruct (existsb _ _ && negb _); reflexivity.
  - rewrite skipAll_at, revealAll_at.
    destruct (existsb _ _ && negb _); reflexivity.
  - rewrite skipAll_at, revealAll_at.
    destruct (existsb _ _ && negb _); reflexivity.
  - rewrite skipAll_at, revealAll_at.
    destruct (existsb _ _ && negb _); reflexivity.
  - rewrite skipAll_at, revealAll_at.
    destruct (existsb _ _ && negb _); reflexivity.
  - rewrite skipAll_at, (proj2 (existsb_eqb_In q (Game.Players g)) H), H0.
    reflexivity.
  - rewrite revealAll_at, (proj2 (existsb_eqb_In q (Game.Players g)) H), H0.
    reflexivity.
  - exact A1.
  - intros q. rewrite revealAll_at.
    destruct (existsb _ _ && negb _); reflexivity.
Qed.

(** ** The end of the session *)

(** C6, on the code: [End] always returns, and called again on the state it
    leaves it returns that state unchanged. On a session not yet ended the
    first call sets the terminal flag and the End phase. No call writes
    anything to any connection: neither the phase change nor the final
    leaderboard reaches a player or the host, since the packets that carry
    them have no tag. *)
Theorem End_at_most_once (g : Game.t) (m : ptr -> Player.t) (w : list Write) :
  exists s1,
    End (mkSys g m w) = Ok (tt, s1)
    /\ End s1 = Ok (tt, s1)
    /\ Game.Ended (game s1) = true
    /\ (if Game.Ended g then s1 = mkSys g m w
        else Game.State (game s1) = EndState)
    /\ mem s1 = m
    /\ sent s1 = w.
Proof.
  destruct (Game.Ended g) eqn:E.
  - exists (mkSys g m w).
    repeat split; try (apply End_ended; exact E); assumption.
  - eexists. split; [apply (End_run g m w E)|].
    split; [apply End_ended; reflexivity|]. repeat split.
Qed.

(** ** The encoder *)

(** C4, on the code: of the packets the server sends, only
    [QuestionShowPacket] is encoded, as the tag byte 2 followed by the
    serialized payload. The packets that carry a phase change, a joined or
    a departed player, an answer result, a leaderboard and a countdown tick
    are refused with the error of an invalid packet type. *)
Theorem encoding_of_outbound_packets :
  (forall question,
      PacketToBytes (QuestionShowPacket question)
      = match json_Marshal (QuestionShowPacket question) with
        | (_, Some err) => ([], Some err)
        | (bytes, None) => (x02 :: bytes, None)
        end)
  /\ (forall state,
         PacketToBytes (ChangeGameStatePacket state)
         = ([], Some "invalid packet type"%string))
  /\ (forall player,
         PacketToBytes (PlayerJoinPacket player)
         = ([], Some "invalid packet type"%string))
  /\ (forall playerId,
         PacketToBytes (PlayerDisconnectPacket playerId)
         = ([], Some "invalid packet type"%string))
  /\ (forall points,
         PacketToBytes (PlayerRevealPacket points)
         = ([], Some "invalid packet type"%string))
  /\ (forall leaderboard,
         PacketToBytes (LeaderboardPacket leaderboard)
         = ([], Some "invalid packet type"%string))
  /\ (forall tick,
         PacketToBytes (TickPacket tick)
         = ([], Some "invalid packet type"%string)).
Proof. repeat split. Qed.

(** ** The leaderboard *)

Lemma StronglySorted_firstn {A : Type} (R : A -> A -> Prop) (l : list A) :
  StronglySorted R l -> forall k, StronglySorted R (firstn k l).
Proof.
  induction 1 as [|x l S IH F]; intros k.
  - rewrite firstn_nil. constructor.
  - destruct k as [|k]; [constructor|]. cbn [firstn]. constructor; [apply IH|].
    rewrite Forall_forall in *. intros y Hy. apply F.
    rewrite <- (firstn_skipn k l). apply in_or_app. now left.
Qed.

Lemma StronglySorted_map {A B : Type} (f : A -> B) (R : B -> B -> Prop) (l : list A) :
  StronglySorted (fun a b => R (f a) (f b)) l -> StronglySorted R (map f l).
Proof.
  induction 1 as [|x l S IH F]; cbn [map]; constructor; [assumption|].
  rewrite Forall_forall in *. intros y Hy.
  apply in_map_iff in Hy. destruct Hy as [a [<- Ha]]. now apply F.
Qed.

(** Two lists of integers in non-increasing order with the same elements are
    the same list. *)
Lemma nonIncreasing_unique (l1 : list Z) :
  forall l2 : list Z,
    StronglySorted (fun a b => b <= a) l1 ->
    StronglySorted (fun a b => b <= a) l2 ->
    Permutation l1 l2 -> l1 = l2.
Proof.
  induction l1 as [|x1 t1 IH]; intros l2 S1 S2 P.
  - apply Permutation_nil in P. now subst.
  - destruct l2 as [|x2 t2]; [apply Permutation_sym, Permutation_nil in P; discriminate|].
    inversion S1 as [|? ? S1' F1]; subst. inversion S2 as [|? ? S2' F2]; subst.
    rewrite Forall_forall in F1, F2.
    assert (E : x1 = x2).
    { assert (I2 : In x2 (x1 :: t1))
        by (apply (Permutation_in _ (Permutation_sym P)); now left).
      assert (I1 : In x1 (x2 :: t2)) by (apply (Permutation_in _ P); now left).
      destruct I2 as [->|I2]; [reflexivity|]. destruct I1 as [->|I1]; [reflexivity|].
      specialize (F1 _ I2). specialize (F2 _ I1). lia. }
    subst x2. f_equal. apply IH; try assumption.
    now apply Permutation_cons_inv in P.
Qed.

Lemma top3_length {A : Type} (l : list A) :
  (List.length (firstn (Z.to_nat (Z.min 3 (len l))) l) <= 3)%nat.
Proof.
  etransitivity; [apply firstn_le_length|]. lia.
Qed.

Lemma leaderboard_points (m : ptr -> Player.t) (k : nat) (l : list ptr) :
  map LeaderboardEntry.Points (map (entryOf m) (firstn k l))
  = firstn k (map (pointsIn m) l).
Proof. rewrite map_map, firstn_map. reflexivity. Qed.

(** C7, as the code has it: for a [sort.Slice] that meets its contract,
    [getLeaderboard] returns at most 3 entries in which the points never
    increase (players with equal points follow each other, so the order is
    not strict), and a second call returns entries with the same points in
    the same order. With a sort that leaves an ordered slice as it is, the
    second call returns the very same entries and leaves the state as the
    first call left it. *)
Theorem leaderboard_top3 (g : Game.t) (m : ptr -> Player.t) (w : list Write) :
  sortContract sort_Slice ->
  exists lb s1 lb2 s2,
    getLeaderboard (mkSys g m w) = Ok (lb, s1)
    /\ (List.length lb <= 3)%nat
    /\ nonIncreasing lb
    /\ getLeaderboard s1 = Ok (lb2, s2)
    /\ map LeaderboardEntry.Points lb2 = map LeaderboardEntry.Points lb
    /\ (keepsOrdered sort_Slice -> lb2 = lb /\ s2 = s1).
Proof.
  intros C.
  set (sorted := sort_Slice (morePoints m) (Game.Players g)).
  set (sorted2 := sort_Slice (morePoints m) sorted).
  destruct (C m (Game.Players g)) as [P1 D1]. fold sorted in P1, D1.
  destruct (C m sorted) as [P2 D2]. fold sorted2 in P2, D2.
  exists (map (entryOf m) (firstn (Z.to_nat (Z.min 3 (len sorted))) sorted)),
         (mkSys (Game.set_Players sorted g) m w),
         (map (entryOf m) (firstn (Z.to_nat (Z.min 3 (len sorted2))) sorted2)),
         (mkSys (Game.set_Players sorted2 g) m w).
  split; [reflexivity|].
  split; [rewrite length_map; apply top3_length|].
  split.
  { unfold nonIncreasing. apply StronglySorted_map.
    apply (StronglySorted_firstn _ _ D1). }
  split; [reflexivity|].
  assert (L : len sorted2 = len sorted).
  { unfold len. now rewrite (Permutation_length P2). }
  split.
  { rewrite !leaderboard_points, L. f_equal.
    apply nonIncreasing_unique.
    - apply StronglySorted_map, D2.
    - apply StronglySorted_map, D1.
    - apply Permutation_map, P2. }
  intros K. assert (E : sorted2 = sorted) by (apply K, D1).
  rewrite E. split; reflexivity.
Qed.

(** C8, as the code has it: for a [sort.Slice] that meets its contract,
    [getLeaderboard] leaves the store of the players, the bytes written and
    every field of the session but the roster as they are; the roster holds
    the same players as before, rearranged so that the points never
    increase along it. *)
Theorem getLeaderboard_sorts_roster (g : Game.t) (m : ptr -> Player.t) (w : list Write) :
  sortContract sort_Slice ->
  exists lb roster,
    getLeaderboard (mkSys g m w) = Ok (lb, mkSys (Game.set_Players roster g) m w)
    /\ Permutation roster (Game.Players g)
    /\ descending m roster.
Proof.
  intros C. destruct (C m (Game.Players g)) as [P D].
  eexists. exists (sort_Slice (morePoints m) (Game.Players g)).
  split; [reflexivity|]. split; assumption.
Qed.

(** ** Running the timer and the host's commands *)

Lemma ResetPlayerAnswerStates_run (g : Game.t) (m : ptr -> Player.t) (w : list Write) :
  ResetPlayerAnswerStates (mkSys g m w)
  = Ok (tt, mkSys g (resetAll (Game.Players g) m) w).
Proof.
  unfold ResetPlayerAnswerStates. unfold bind at 1. unfold getGame; cbn [game].
  generalize (Game.Players g) as players. intros players. revert m.
  induction players as [|p ps IH]; intros m; [reflexivity|].
  cbn [for_range resetAll fold_left]. unfold bind at 1.
  unfold modifyPlayer at 1, set_mem; cbn [game mem sent]. apply IH.
Qed.

Lemma resetAll_at (players : list ptr) :
  forall (m : ptr -> Player.t) (q : ptr),
    resetAll players m q
    = if existsb (Nat.eqb q) players then Player.set_Answered false (m q) else m q.
Proof.
  induction players as [|p ps IH]; intros m q; [reflexivity|].
  cbn [resetAll fold_left existsb]. fold (resetAll ps (resetOne m p)).
  rewrite IH. unfold resetOne, upd.
  destruct (Nat.eqb q p) eqn:E.
  - apply Nat.eqb_eq in E; subst q. cbn [orb].
    destruct (existsb (Nat.eqb p) ps); reflexivity.
  - cbn [orb]. reflexivity.
Qed.

Lemma SendPacket_question (c : Conn) (question : entity.QuizQuestion)
    (g : Game.t) (m : ptr -> Player.t) (w : list Write) :
  exists err,
    SendPacket c (QuestionShowPacket question) (mkSys g m w)
    = Ok (err, mkSys g m (w ++ questionWrites c question)).
Proof.
  unfold SendPacket, PacketToBytes, questionWrites. cbn [packetToPacketId].
  destruct (json_Marshal (QuestionShowPacket question)) as [bytes [e|]].
  - exists (Some e). now rewrite app_nil_r.
  - eexists. reflexivity.
Qed.

(** [NextQuestion] past the last question is [End] on the session with the
    index incremented. *)
Lemma NextQuestion_run_end (g : Game.t) (m : ptr -> Player.t) (w : list Write) :
  len (entity.Questions (Game.Quiz g)) <= add64 (Game.CurrentQuestion g) 1 ->
  NextQuestion (mkSys g m w)
  = End (mkSys (Game.set_CurrentQuestion (add64 (Game.CurrentQuestion g) 1) g) m w).
Proof.
  intros H. unfold NextQuestion. unfold bind at 1.
  unfold modifyGame, set_game; cbn [game mem sent].
  unfold bind at 1. unfold getGame; cbn [game Game.Quiz Game.set_CurrentQuestion
    Game.CurrentQuestion].
  apply Z.leb_le in H. rewrite H. reflexivity.
Qed.

(** [NextQuestion] onto an existing question. *)
Lemma NextQuestion_run_advance (g : Game.t) (m : ptr -> Player.t) (w : list Write) :
  0 <= add64 (Game.CurrentQuestion g) 1 < len (entity.Questions (Game.Quiz g)) ->
  exists question,
    nth_error (entity.Questions (Game.Quiz g))
              (Z.to_nat (add64 (Game.CurrentQuestion g) 1)) = Some question
    /\ NextQuestion (mkSys g m w)
       = Ok (tt, mkSys (Game.set_Time (entity.Time question)
                          (Game.set_State PlayState
                             (Game.set_CurrentQuestion
                                (add64 (Game.CurrentQuestion g) 1) g)))
                       (resetAll (Game.Players g) m)
                       (w ++ questionWrites (Game.Host g) question)).
Proof.
  intros H.
  set (g1 := Game.set_CurrentQuestion (add64 (Game.CurrentQuestion g) 1) g).
  destruct (index_run (entity.Questions (Game.Quiz g))
              (add64 (Game.CurrentQuestion g) 1)
              (mkSys (Game.set_State PlayState g1) (resetAll (Game.Players g) m) w) H)
    as [question [E1 E2]].
  destruct (index_run (entity.Questions (Game.Quiz g))
              (add64 (Game.CurrentQuestion g) 1)
              (mkSys (Game.set_Time (entity.Time question) (Game.set_State PlayState g1))
                     (resetAll (Game.Players g) m) w) H)
    as [question' [E1' E2']].
  rewrite E1 in E1'. injection E1' as <-.
  exists question. split; [exact E1|].
  destruct (SendPacket_question (Game.Host g) question
              (Game.set_Time (entity.Time question) (Game.set_State PlayState g1))
              (resetAll (Game.Players g) m) w) as [err E3].
  unfold NextQuestion. unfold bind at 1.
  unfold modifyGame at 1, set_game; cbn [game mem sent]. fold g1.
  unfold bind at 1. unfold getGame at 1; cbn [game].
  replace (len (entity.Questions (Game.Quiz g1)) <=? Game.CurrentQuestion g1)
    with false
    by (symmetry; apply Z.leb_gt; subst g1; cbn [Game.CurrentQuestion
          Game.set_CurrentQuestion Game.Quiz]; lia).
  unfold bind at 1. rewrite (ResetPlayerAnswerStates_run g1 m w).
  unfold bind at 1. rewrite ChangeState_run.
  unfold bind at 1. unfold getCurrentQuestion at 1. unfold bind at 1.
  unfold getGame at 1; cbn [game].
  change (Game.Quiz (Game.set_State PlayState g1)) with (Game.Quiz g).
  change (Game.CurrentQuestion (Game.set_State PlayState g1))
    with (add64 (Game.CurrentQuestion g) 1).
  change (Game.Players g1) with (Game.Players g).
  rewrite E2.
  unfold bind at 1. unfold modifyGame at 1, set_game; cbn [game mem sent].
  unfold bind at 1. unfold getCurrentQuestion at 1. unfold bind at 1.
  unfold getGame at 1; cbn [game].
  change (Game.Quiz (Game.set_Time (entity.Time question)
                       (Game.set_State PlayState g1))) with (Game.Quiz g).
  change (Game.CurrentQuestion (Game.set_Time (entity.Time question)
                                  (Game.set_State PlayState g1)))
    with (add64 (Game.CurrentQuestion g) 1).
  rewrite E2'.
  unfold bind at 1. change (Game.Host g1) with (Game.Host g). rewrite E3.
  reflexivity.
Qed.

(** [NextQuestion] onto a negative index panics in [getCurrentQuestion]. *)
Lemma NextQuestion_run_panic (g : Game.t) (m : ptr -> Player.t) (w : list Write) :
  add64 (Game.CurrentQuestion g) 1 < 0 ->
  NextQuestion (mkSys g m w) = Panic "index out of range"%string.
Proof.
  intros H.
  set (g1 := Game.set_CurrentQuestion (add64 (Game.CurrentQuestion g) 1) g).
  unfold NextQuestion. unfold bind at 1.
  unfold modifyGame at 1, set_game; cbn [game mem sent]. fold g1.
  unfold bind at 1. unfold getGame at 1; cbn [game].
  pose proof (len_nonneg (entity.Questions (Game.Quiz g))) as L.
  replace (len (entity.Questions (Game.Quiz g1)) <=? Game.CurrentQuestion g1)
    with false
    by (symmetry; apply Z.leb_gt; subst g1; cbn [Game.CurrentQuestion
          Game.set_CurrentQuestion Game.Quiz]; lia).
  unfold bind at 1. rewrite (ResetPlayerAnswerStates_run g1 m w).
  unfold bind at 1. rewrite ChangeState_run.
  unfold bind at 1. unfold getCurrentQuestion at 1. unfold bind at 1.
  unfold getGame at 1; cbn [game].
  change (Game.CurrentQuestion (Game.set_State PlayState g1))
    with (add64 (Game.CurrentQuestion g) 1).
  unfold index. apply Z.ltb_lt in H. rewrite H. reflexivity.
Qed.

Lemma Tick_run (g : Game.t) (m : ptr -> Player.t) (w : list Write) :
  Tick (mkSys g m w)
  = let s1 := mkSys (Game.set_Time (sub64 (Game.Time g) 1) g) m w in
    if sub64 (Game.Time g) 1 =? 0 then
      match Game.State g with
      | PlayState => Reveal s1
      | RevealState => Intermission s1
      | IntermissionState => NextQuestion s1
      | _ => Ok (tt, s1)
      end
    else Ok (tt, s1).
Proof.
  cbv zeta. set (s1 := mkSys (Game.set_Time (sub64 (Game.Time g) 1) g) m w).
  transitivity ((if sub64 (Game.Time g) 1 =? 0 then
                   match Game.State g with
                   | PlayState => Reveal
                   | RevealState => Intermission
                   | IntermissionState => NextQuestion
                   | _ => ret tt
                   end
                 else ret tt) s1).
  - reflexivity.
  - destruct (sub64 (Game.Time g) 1 =? 0); [|reflexivity].
    destruct (Game.State g); reflexivity.
Qed.

Lemma Skip_run (g : Game.t) (m : ptr -> Player.t) (w : list Write) :
  Skip (mkSys g m w)
  = let s1 := mkSys g (skipAll (Game.Players g) m) w in
    match Game.State g with
    | PlayState => Reveal s1
    | RevealState => Intermission s1
    | IntermissionState => NextQuestion s1
    | _ => Ok (tt, s1)
    end.
Proof.
  unfold Skip. unfold bind at 1. unfold getGame; cbn [game].
  unfold bind at 1. rewrite Skip_loop. cbv zeta.
  destruct (Game.State g); reflexivity.
Qed.

Lemma Start_run (g : Game.t) (m : ptr -> Player.t) (w : list Write) :
  Start (mkSys g m w) = NextQuestion (mkSys (Game.set_State PlayState g) m w).
Proof. unfold Start. unfold bind at 1. now rewrite ChangeState_run. Qed.

Lemma StartOrSkip_run (g : Game.t) (m : ptr -> Player.t) (w : list Write) :
  StartOrSkip (mkSys g m w)
  = match Game.State g with
    | LobbyState => NextQuestion (mkSys (Game.set_State PlayState g) m w)
    | _ => NextQuestion (mkSys g m w)
    end.
Proof.
  unfold StartOrSkip. unfold bind at 1. unfold getGame; cbn [game].
  destruct (Game.State g); try reflexivity. apply Start_run.
Qed.

Lemma sub64_pred (t : Z) : - 2 ^ 63 < t < 2 ^ 63 -> sub64 t 1 = t - 1.
Proof. intros H. unfold sub64. apply wrap64_small. lia. Qed.

Lemma add64_succ (i : Z) : - 2 ^ 63 <= i < 2 ^ 63 - 1 -> add64 i 1 = i + 1.
Proof. intros H. unfold add64. apply wrap64_small. lia. Qed.

(** ** Moving to the next question *)

(** [NextQuestion] onto a question that exists, field by field. *)
Lemma NextQuestion_advances (g : Game.t) (m : ptr -> Player.t) (w : list Write) :
  countsQuestions g ->
  Game.CurrentQuestion g + 1 < len (entity.Questions (Game.Quiz g)) ->
  exists question s',
    nth_error (entity.Questions (Game.Quiz g))
              (Z.to_nat (Game.CurrentQuestion g + 1)) = Some question
    /\ NextQuestion (mkSys g m w) = Ok (tt, s')
    /\ game s' = Game.set_Time (entity.Time question)
                   (Game.set_State PlayState
                      (Game.set_CurrentQuestion (Game.CurrentQuestion g + 1) g))
    /\ (forall q, In q (Game.Players g) ->
                  mem s' q = Player.set_Answered false (m q))
    /\ (forall q, ~ In q (Game.Players g) -> mem s' q = m q)
    /\ sent s' = w ++ questionWrites (Game.Host g) question.
Proof.
  intros C H. unfold countsQuestions in C.
  assert (A : add64 (Game.CurrentQuestion g) 1 = Game.CurrentQuestion g + 1)
    by (apply add64_succ; lia).
  destruct (NextQuestion_run_advance g m w) as [question [E1 E2]];
    [rewrite A; lia|].
  rewrite A in E1, E2. exists question. eexists.
  split; [exact E1|]. split; [exact E2|]. cbn [game mem sent].
  split; [reflexivity|]. split; [|split; [|reflexivity]].
  - intros q Hq. rewrite resetAll_at.
    now rewrite (proj2 (existsb_eqb_In q (Game.Players g)) Hq).
  - intros q Hq. rewrite resetAll_at.
    destruct (existsb (Nat.eqb q) (Game.Players g)) eqn:E; [|reflexivity].
    apply existsb_eqb_In in E. contradiction.
Qed.

(** X1: when a question follows the current one, [NextQuestion] returns
    with the session in Play on that question and the countdown at its time
    limit. Every player of the roster has the answered flag cleared and
    keeps everything else, the last award included; players outside the
    roster are untouched. The question is written to the host alone (tag 2),
    or to nobody when it cannot be serialized. *)
Theorem NextQuestion_presents (g : Game.t) (m : ptr -> Player.t) (w : list Write) :
  countsQuestions g ->
  Game.CurrentQuestion g + 1 < len (entity.Questions (Game.Quiz g)) ->
  exists question s',
    nth_error (entity.Questions (Game.Quiz g))
              (Z.to_nat (Game.CurrentQuestion g + 1)) = Some question
    /\ NextQuestion (mkSys g m w) = Ok (tt, s')
    /\ game s' = Game.set_Time (entity.Time question)
                   (Game.set_State PlayState
                      (Game.set_CurrentQuestion (Game.CurrentQuestion g + 1) g))
    /\ (forall q, In q (Game.Players g) ->
                  mem s' q = Player.set_Answered false (m q))
    /\ (forall q, ~ In q (Game.Players g) -> mem s' q = m q)
    /\ sent s' = w ++ questionWrites (Game.Host g) question.
Proof. exact (NextQuestion_advances g m w). Qed.

(** [NextQuestion] when no question is left. *)
Lemma NextQuestion_ends (g : Game.t) (m : ptr -> Player.t) (w : list Write) :
  countsQuestions g ->
  len (entity.Questions (Game.Quiz g)) <= Game.CurrentQuestion g + 1 ->
  NextQuestion (mkSys g m w)
  = Ok (tt,
        mkSys (let g1 := Game.set_CurrentQuestion (Game.CurrentQuestion g + 1) g in
               if Game.Ended g then g1
               else Game.set_Players
                      (sort_Slice (morePoints m) (Game.Players g))
                      (Game.set_State EndState (Game.set_Ended true g1)))
              m w).
Proof.
  intros C H. unfold countsQuestions in C.
  assert (A : add64 (Game.CurrentQuestion g) 1 = Game.CurrentQuestion g + 1)
    by (apply add64_succ; lia).
  rewrite NextQuestion_run_end by (rewrite A; exact H). rewrite A. cbv zeta.
  destruct (Game.Ended g) eqn:E.
  - apply End_ended. exact E.
  - rewrite (End_run (Game.set_CurrentQuestion (Game.CurrentQuestion g + 1) g)
               m w E).
    reflexivity.
Qed.

(** X2: when no question follows the current one, [NextQuestion] returns
    with the index incremented all the same. On a session not yet ended it
    sets the terminal flag and the End phase and sorts the roster for the
    final leaderboard; on an ended session the index is all that changes.
    In both cases the store is left as it is, answered flags included, and
    nothing is written. *)
Theorem NextQuestion_past_the_last (g : Game.t) (m : ptr -> Player.t) (w : list Write) :
  countsQuestions g ->
  len (entity.Questions (Game.Quiz g)) <= Game.CurrentQuestion g + 1 ->
  NextQuestion (mkSys g m w)
  = Ok (tt,
        mkSys (let g1 := Game.set_CurrentQuestion (Game.CurrentQuestion g + 1) g in
               if Game.Ended g then g1
               else Game.set_Players
                      (sort_Slice (morePoints m) (Game.Players g))
                      (Game.set_State EndState (Game.set_Ended true g1)))
              m w).
Proof. exact (NextQuestion_ends g m w). Qed.

(** X3: the host's start command in the lobby of a new session (index -1).
    With a first question the session enters Play on question 0 with the
    countdown at its time limit, the roster's answered flags cleared and the
    question written to the host; with a quiz without questions the session
    ends at once, index 0, and nothing is written. *)
Theorem StartOrSkip_from_lobby (g : Game.t) (m : ptr -> Player.t) (w : list Write) :
  Game.State g = LobbyState ->
  Game.CurrentQuestion g = -1 ->
  Game.Ended g = false ->
  StartOrSkip (mkSys g m w)
  = Ok (tt,
        match entity.Questions (Game.Quiz g) with
        | [] =>
            mkSys (Game.set_Players
                     (sort_Slice (morePoints m) (Game.Players g))
                     (Game.set_State EndState
                        (Game.set_Ended true (Game.set_CurrentQuestion 0 g))))
                  m w
        | question :: _ =>
            mkSys (Game.set_Time (entity.Time question)
                     (Game.set_State PlayState (Game.set_CurrentQuestion 0 g)))
                  (resetAll (Game.Players g) m)
                  (w ++ questionWrites (Game.Host g) question)
        end).
Proof.
  intros S Q E. rewrite StartOrSkip_run, S.
  set (g0 := Game.set_State PlayState g).
  assert (C : countsQuestions g0)
    by (unfold countsQuestions; subst g0; cbn [Game.CurrentQuestion Game.set_State];
        rewrite Q; lia).
  assert (Q0 : Game.CurrentQuestion g0 = -1) by exact Q.
  destruct (entity.Questions (Game.Quiz g)) as [|question rest] eqn:L.
  - rewrite (NextQuestion_ends g0 m w C).
    + subst g0. cbn [Game.Ended Game.set_State]. rewrite E. cbv zeta.
      cbn [Game.CurrentQuestion Game.set_State]. rewrite Q. reflexivity.
    + subst g0. cbn [Game.Quiz Game.set_State Game.CurrentQuestion].
      rewrite L, Q. cbn. lia.
  - destruct (NextQuestion_run_advance g0 m w) as [question' [E1 E2]].
    + unfold add64. rewrite Q0. subst g0. cbn [Game.Quiz Game.set_State].
      rewrite L. unfold len. cbn [List.length]. rewrite wrap64_small; lia.
    + rewrite E2. unfold add64 in *. rewrite Q0 in *.
      subst g0. cbn [Game.Quiz Game.set_State] in E1. rewrite L in E1.
      rewrite wrap64_small in E1 by lia. cbn in E1. injection E1 as <-.
      rewrite wrap64_small by lia. reflexivity.
Qed.

(** ** The size of the reward *)

(** X4: with [t] seconds on the countdown (no wrap-around),
    [getPointsReward] returns between [1000 + 16 t] and [5000 + 16 t]: the
    full 5000 when nobody in the roster has answered, and the floor of 1000
    from the fifth answer on. *)
Theorem getPointsReward_bounds (g : Game.t) (m : ptr -> Player.t) (w : list Write) :
  - 2 ^ 58 <= Game.Time g <= 2 ^ 58 ->
  exists reward,
    getPointsReward (mkSys g m w) = Ok (reward, mkSys g m w)
    /\ 1000 + 16 * Game.Time g <= reward <= 5000 + 16 * Game.Time g
    /\ (answeredIn m (Game.Players g) = [] -> reward = 5000 + 16 * Game.Time g)
    /\ (4 <= len (answeredIn m (Game.Players g)) ->
        reward = 1000 + 16 * Game.Time g).
Proof.
  intros T. exists (rewardOf g m). split; [reflexivity|].
  rewrite (rewardOf_exact g m T). unfold rewardPerSecond.
  pose proof (len_nonneg (answeredIn m (Game.Players g))) as L.
  split; [lia|]. split.
  - intros E. rewrite E in *. unfold len in *. cbn [List.length] in *. lia.
  - intros E. lia.
Qed.

(** X5: for countdowns within 2^58 of zero (no wrap-around of the 64-bit
    product), more time on the countdown and fewer answers before never
    give a smaller reward. *)
Theorem getPointsReward_monotone (g g' : Game.t) (m m' : ptr -> Player.t)
    (w w' : list Write) :
  - 2 ^ 58 <= Game.Time g <= 2 ^ 58 ->
  - 2 ^ 58 <= Game.Time g' <= 2 ^ 58 ->
  Game.Time g <= Game.Time g' ->
  len (answeredIn m' (Game.Players g')) <= len (answeredIn m (Game.Players g)) ->
  exists reward reward',
    getPointsReward (mkSys g m w) = Ok (reward, mkSys g m w)
    /\ getPointsReward (mkSys g' m' w') = Ok (reward', mkSys g' m' w')
    /\ reward <= reward'.
Proof.
  intros T T' Ht Hn. exists (rewardOf g m), (rewardOf g' m').
  split; [reflexivity|]. split; [reflexivity|].
  rewrite (rewardOf_exact g m T), (rewardOf_exact g' m' T').
  unfold rewardPerSecond. lia.
Qed.

(** ** The countdown *)

Lemma Tick_no_expiry (g : Game.t) (m : ptr -> Player.t) (w : list Write) :
  - 2 ^ 63 < Game.Time g < 2 ^ 63 ->
  Game.Time g <> 1 ->
  Tick (mkSys g m w) = Ok (tt, mkSys (Game.set_Time (Game.Time g - 1) g) m w).
Proof.
  intros R N. rewrite Tick_run. cbv zeta. rewrite (sub64_pred _ R).
  destruct (Game.Time g - 1 =? 0) eqn:E; [|reflexivity].
  apply Z.eqb_eq in E. lia.
Qed.

Lemma timer_round (k : nat) (g : Game.t) (m : ptr -> Player.t) (w : list Write) :
  Game.Ended g = false ->
  timer (S k) (mkSys g m w) = (Tick ;; timer k) (mkSys g m w).
Proof.
  intros E. cbn [timer]. unfold bind at 1. unfold getGame; cbn [game].
  now rewrite E.
Qed.

(** Rounds of the timer in which the countdown does not expire. *)
Lemma timer_idles (n : nat) :
  forall (g : Game.t) (m : ptr -> Player.t) (w : list Write),
    Game.Ended g = false ->
    Z.of_nat n < Game.Time g \/ Game.Time g <= 0 ->
    - 2 ^ 63 < Game.Time g - Z.of_nat n ->
    Game.Time g < 2 ^ 63 ->
    timer n (mkSys g m w)
    = Ok (tt, mkSys (Game.set_Time (Game.Time g - Z.of_nat n) g) m w).
Proof.
  induction n as [|n IH]; intros g m w E H L U.
  - cbn [timer]. unfold ret.
    replace (Game.Time g - Z.of_nat 0) with (Game.Time g) by lia.
    now destruct g.
  - rewrite (timer_round n g m w E). unfold bind at 1.
    rewrite Tick_no_expiry by lia.
    rewrite IH; cbn [Game.Time Game.set_Time Game.Ended]; try lia; try exact E.
    replace (Game.Time g - 1 - Z.of_nat n) with (Game.Time g - Z.of_nat (S n))
      by lia.
    reflexivity.
Qed.

(** X6: on a session that has not ended, as long as the countdown does not
    pass from 1 to 0 the rounds of the timer only count down: after [n]
    rounds from [t], with [n < t] or [t <= 0], the countdown is [t - n] and
    the phase, the players and the bytes written are what they were. In
    particular a countdown that starts at 0 or below (a question with a time
    limit of 0) never expires. *)
Theorem timer_counts_down (n : nat) :
  forall (g : Game.t) (m : ptr -> Player.t) (w : list Write),
    Game.Ended g = false ->
    Z.of_nat n < Game.Time g \/ Game.Time g <= 0 ->
    - 2 ^ 63 < Game.Time g - Z.of_nat n ->
    Game.Time g < 2 ^ 63 ->
    timer n (mkSys g m w)
    = Ok (tt, mkSys (Game.set_Time (Game.Time g - Z.of_nat n) g) m w).
Proof. exact (timer_idles n). Qed.

(** Once the session has ended the timer does nothing, however many
    rounds it is given. *)
Lemma timer_stops_when_ended (n : nat) (s : Sys) :
  Game.Ended (game s) = true -> timer n s = Ok (tt, s).
Proof.
  intros E. destruct n as [|n]; [reflexivity|].
  cbn [timer]. unfold bind, getGame. now rewrite E.
Qed.

(** ** Answers and the current question *)

(** X7: without a current question, [isCorrectChoice] and with it
    [OnPlayerAnswer] panic on every choice: in the lobby, where the index is
    -1, and once the index has moved past the last question. *)
Theorem answer_without_question_panics (choice : Z) (player : ptr)
    (g : Game.t) (m : ptr -> Player.t) (w : list Write) :
  Game.CurrentQuestion g < 0
  \/ len (entity.Questions (Game.Quiz g)) <= Game.CurrentQuestion g ->
  isCorrectChoice choice (mkSys g m w) = Panic "index out of range"%string
  /\ OnPlayerAnswer choice player (mkSys g m w) = Panic "index out of range"%string.
Proof.
  intros H.
  assert (E : isCorrectChoice choice (mkSys g m w) = Panic "index out of range"%string).
  { unfold isCorrectChoice. unfold bind at 1. unfold getCurrentQuestion.
    unfold bind at 1. unfold getGame; cbn [game]. unfold index.
    destruct ((Game.CurrentQuestion g <? 0)
              || (len (entity.Questions (Game.Quiz g)) <=? Game.CurrentQuestion g))
      eqn:G; [reflexivity|].
    apply orb_false_iff in G. destruct G as [G1 G2].
    apply Z.ltb_ge in G1. apply Z.leb_gt in G2. lia. }
  split; [exact E|]. unfold OnPlayerAnswer. unfold bind at 1. now rewrite E.
Qed.

(** X8: on a session with a current question, while another player of the
    roster has not answered, an answer is recorded and nothing else
    happens: [OnPlayerAnswer] returns with the session as it was (phase and
    countdown included), every other player untouched and nothing
    written. *)
Theorem answer_waits_for_the_others (choice : Z) (player other : ptr)
    (g : Game.t) (m : ptr -> Player.t) (w : list Write) :
  onQuestion g ->
  In other (Game.Players g) ->
  other <> player ->
  Player.Answered (m other) = false ->
  exists m',
    OnPlayerAnswer choice player (mkSys g m w) = Ok (tt, mkSys g m' w)
    /\ Player.Answered (m' player) = true
    /\ (forall q, q <> player -> m' q = m q).
Proof.
  intros H I N U.
  destruct (OnPlayerAnswer_total choice player g m w H) as [question [_ E]].
  cbv zeta in E.
  set (m' := recordAnswer (correctIn question choice) (rewardOf g m) player m) in E.
  exists m'.
  destruct (len (answeredIn m' (Game.Players g)) =? len (Game.Players g)) eqn:A.
  - exfalso. apply Z.eqb_eq in A.
    pose proof (proj1 (answeredIn_all m' (Game.Players g)) A other I) as B.
    subst m'. rewrite recordAnswer_other in B by assumption. congruence.
  - split; [exact E|]. subst m'. split; [now rewrite recordAnswer_at|].
    intros q Hq. now apply recordAnswer_other.
Qed.

(** ** A question nobody answers *)

Lemma timer_app (a b : nat) :
  forall s s1 : Sys,
    timer a s = Ok (tt, s1) -> timer (a + b) s = timer b s1.
Proof.
  induction a as [|a IH]; intros s s1 H.
  - cbn [timer] in H. unfold ret in H. injection H as <-. reflexivity.
  - cbn [Nat.add timer] in *. unfold bind at 1 in H. unfold bind at 1.
    unfold getGame in *. destruct (Game.Ended (game s)) eqn:E.
    + unfold ret in H. injection H as <-.
      symmetry. now apply timer_stops_when_ended.
    + unfold bind at 1 in H. unfold bind at 1.
      destruct (Tick s) as [[[] s2]|msg]; [|discriminate H]. now apply IH.
Qed.

Lemma timer_one (s : Sys) :
  Game.Ended (game s) = false -> timer 1 s = Tick s.
Proof.
  intros E. cbn [timer]. unfold bind at 1. unfold getGame. rewrite E.
  unfold bind, ret. destruct (Tick s) as [[[] s']|msg]; reflexivity.
Qed.

(** The countdown expires in the round that finds it at 1. *)
Lemma timer_expires (k : nat) (g : Game.t) (m : ptr -> Player.t) (w : list Write) :
  Game.Ended g = false ->
  Game.Time g = Z.of_nat (S k) ->
  Z.of_nat (S k) < 2 ^ 63 ->
  timer (S k) (mkSys g m w) = Tick (mkSys (Game.set_Time 1 g) m w).
Proof.
  intros E T U. replace (S k) with (k + 1)%nat by lia.
  rewrite (timer_app k 1 (mkSys g m w) (mkSys (Game.set_Time 1 g) m w)).
  - now apply timer_one.
  - rewrite timer_idles; try lia; try exact E.
    replace (Game.Time g - Z.of_nat k) with 1 by lia. reflexivity.
Qed.

(** From Play with the countdown at [t = k + 1] and no answer coming in:
    Reveal after [t] rounds, Intermission after 7 more. *)
Lemma timer_to_Intermission (k : nat) (g : Game.t) (m : ptr -> Player.t) (w : list Write) :
  Game.Ended g = false ->
  Game.State g = PlayState ->
  Game.Time g = Z.of_nat (S k) ->
  Z.of_nat (S k) < 2 ^ 63 ->
  timer (S k) (mkSys g m w)
  = Ok (tt, mkSys (Game.set_State RevealState (Game.set_Time 7 g))
                  (revealAll (Game.Players g) m) w)
  /\ timer (S k + 7) (mkSys g m w)
     = Ok (tt, mkSys (Game.set_Players
                        (sort_Slice (morePoints (revealAll (Game.Players g) m))
                           (Game.Players g))
                        (Game.set_State IntermissionState (Game.set_Time 30 g)))
                     (revealAll (Game.Players g) m) w).
Proof.
  intros E HS T U.
  assert (P1 : timer (S k) (mkSys g m w)
               = Ok (tt, mkSys (Game.set_State RevealState (Game.set_Time 7 g))
                               (revealAll (Game.Players g) m) w)).
  { rewrite (timer_expires k g m w E T U), Tick_run. cbv zeta.
    cbn [Game.Time Game.set_Time Game.State]. rewrite HS.
    change (sub64 1 1 =? 0) with true. cbv iota. rewrite Reveal_run. reflexivity. }
  split; [exact P1|].
  rewrite (timer_app (S k) 7 _ _ P1).
  rewrite (timer_expires 6); [|exact E|reflexivity|reflexivity].
  rewrite Tick_run. cbv zeta. cbn [Game.Time Game.set_Time Game.State Game.set_State].
  change (sub64 1 1 =? 0) with true. cbv iota. rewrite Intermission_run. reflexivity.
Qed.

(** X9: a question that nobody answers, followed by another one. From Play
    with [t = k + 1] seconds on the countdown, the timer alone takes the
    session to Reveal (countdown 7) in [t] rounds, to Intermission
    (countdown 30) in 7 more and to Play on the next question, with its time
    limit on the countdown, in 30 more. Nothing is written but that next
    question to the host; no total changes, and the players of the roster
    start the next question with the answered flag cleared. *)
Theorem unanswered_question_cycle (k : nat)
    (g : Game.t) (m : ptr -> Player.t) (w : list Write) :
  Game.Ended g = false ->
  Game.State g = PlayState ->
  Game.Time g = Z.of_nat (S k) ->
  Z.of_nat (S k) < 2 ^ 63 ->
  countsQuestions g ->
  Game.CurrentQuestion g + 1 < len (entity.Questions (Game.Quiz g)) ->
  exists question,
    nth_error (entity.Questions (Game.Quiz g))
              (Z.to_nat (Game.CurrentQuestion g + 1)) = Some question
    /\ after (timer (S k)) (mkSys g m w) (fun _ s1 =>
         game s1 = Game.set_State RevealState (Game.set_Time 7 g)
         /\ sent s1 = w)
    /\ after (timer (S k + 7)) (mkSys g m w) (fun _ s2 =>
         Game.State (game s2) = IntermissionState
         /\ Game.Time (game s2) = 30
         /\ Game.CurrentQuestion (game s2) = Game.CurrentQuestion g
         /\ sent s2 = w)
    /\ after (timer (S k + 7 + 30)) (mkSys g m w) (fun _ s3 =>
         Game.State (game s3) = PlayState
         /\ Game.CurrentQuestion (game s3) = Game.CurrentQuestion g + 1
         /\ Game.Time (game s3) = entity.Time question
         /\ sent s3 = w ++ questionWrites (Game.Host g) question
         /\ (forall q, Player.Points (mem s3 q) = Player.Points (m q))
         /\ (forall q, In q (Game.Players (game s3)) ->
                       Player.Answered (mem s3 q) = false)).
Proof.
  intros E HS T U C H.
  destruct (timer_to_Intermission k g m w E HS T U) as [P1 P2].
  set (mR := revealAll (Game.Players g) m) in *.
  set (roster := sort_Slice (morePoints mR) (Game.Players g)) in *.
  set (gI := Game.set_Players roster
               (Game.set_State IntermissionState (Game.set_Time 30 g))) in *.
  destruct (NextQuestion_advances (Game.set_Time 0 gI) mR w C H)
    as [question [s3 [E1 [E2 [G3 [A3 [_ W3]]]]]]].
  exists question. split; [exact E1|].
  split; [unfold after; rewrite P1; split; reflexivity|].
  split; [unfold after; rewrite P2; repeat split|].
  unfold after. rewrite (timer_app (S k + 7) 30 _ _ P2).
  rewrite (timer_expires 29); [|exact E|reflexivity|reflexivity].
  rewrite Tick_run. cbv zeta.
  cbn [Game.Time Game.set_Time Game.State Game.set_State Game.set_Players gI].
  change (sub64 1 1 =? 0) with true. cbv iota.
  change (Game.set_Time (sub64 1 1) (Game.set_Time 1 gI))
    with (Game.set_Time 0 gI).
  rewrite E2, G3. cbn [Game.State Game.CurrentQuestion Game.Time Game.Players
    Game.set_Time Game.set_State Game.set_CurrentQuestion Game.set_Players].
  repeat split; try reflexivity.
  - exact W3.
  - intros q.
    destruct (in_dec Nat.eq_dec q roster) as [I|I].
    + rewrite (A3 q I). subst mR. rewrite revealAll_at.
      destruct (existsb _ _ && negb _); reflexivity.
    + destruct (NextQuestion_advances (Game.set_Time 0 gI) mR w C H)
        as [question' [s3' [_ [E2' [_ [_ [O3 _]]]]]]].
      rewrite E2 in E2'. injection E2' as <-.
      rewrite (O3 q I). subst mR. rewrite revealAll_at.
      destruct (existsb _ _ && negb _); reflexivity.
  - intros q I. now rewrite (A3 q I).
Qed.

(** X10: the last question, unanswered. After the same [t + 7 + 30] rounds
    the session has ended: terminal flag, End phase, the index one past the
    last question; nothing was written, no total changed, and whatever
    further rounds the timer is given leave that state as it is. *)
Theorem last_question_cycle (k n : nat)
    (g : Game.t) (m : ptr -> Player.t) (w : list Write) :
  Game.Ended g = false ->
  Game.State g = PlayState ->
  Game.Time g = Z.of_nat (S k) ->
  Z.of_nat (S k) < 2 ^ 63 ->
  countsQuestions g ->
  len (entity.Questions (Game.Quiz g)) <= Game.CurrentQuestion g + 1 ->
  exists s3,
    timer (S k + 7 + 30) (mkSys g m w) = Ok (tt, s3)
    /\ timer (S k + 7 + 30 + n) (mkSys g m w) = Ok (tt, s3)
    /\ Game.Ended (game s3) = true
    /\ Game.State (game s3) = EndState
    /\ Game.CurrentQuestion (game s3) = Game.CurrentQuestion g + 1
    /\ sent s3 = w
    /\ (forall q, Player.Points (mem s3 q) = Player.Points (m q)).
Proof.
  intros E HS T U C H.
  destruct (timer_to_Intermission k g m w E HS T U) as [_ P2].
  set (mR := revealAll (Game.Players g) m) in *.
  set (roster := sort_Slice (morePoints mR) (Game.Players g)) in *.
  set (gI := Game.set_Players roster
               (Game.set_State IntermissionState (Game.set_Time 30 g))) in *.
  assert (P3 : exists g3,
             timer (S k + 7 + 30) (mkSys g m w) = Ok (tt, mkSys g3 mR w)
             /\ Game.Ended g3 = true /\ Game.State g3 = EndState
             /\ Game.CurrentQuestion g3 = Game.CurrentQuestion g + 1).
  { eexists. split.
    - rewrite (timer_app (S k + 7) 30 _ _ P2).
      rewrite (timer_expires 29); [|exact E|reflexivity|reflexivity].
      rewrite Tick_run. cbv zeta.
      cbn [Game.Time Game.set_Time Game.State Game.set_State Game.set_Players gI].
      change (sub64 1 1 =? 0) with true. cbv iota.
      change (Game.set_Time (sub64 1 1) (Game.set_Time 1 gI))
    with (Game.set_Time 0 gI).
      rewrite (NextQuestion_ends (Game.set_Time 0 gI) mR w C H).
      cbv zeta. cbn [Game.Ended Game.set_Time gI Game.set_Players Game.set_State].
      rewrite E. reflexivity.
    - repeat split. }
  destruct P3 as [g3 [P3 [E3 [S3 C3]]]].
  exists (mkSys g3 mR w). split; [exact P3|].
  split; [rewrite (timer_app _ n _ _ P3); now apply timer_stops_when_ended|].
  cbn [game mem sent]. repeat split; try assumption.
  intros q. subst mR. rewrite revealAll_at.
  destruct (existsb _ _ && negb _); reflexivity.
Qed.

(** ** What the timer and the host's commands never touch *)

Lemma samePlayer_refl (a : Player.t) : samePlayer a a.
Proof. repeat split. Qed.

Lemma samePlayer_trans (a b c : Player.t) :
  samePlayer a b -> samePlayer b c -> samePlayer a c.
Proof.
  unfold samePlayer. intros [A1 [A2 [A3 A4]]] [B1 [B2 [B3 B4]]].
  repeat split; congruence.
Qed.

Lemma quiet_refl (s : Sys) : quiet s s.
Proof.
  unfold quiet. repeat split; try reflexivity.
  exists []. split; [now rewrite app_nil_r | constructor].
Qed.

Lemma quiet_trans (s1 s2 s3 : Sys) : quiet s1 s2 -> quiet s2 s3 -> quiet s1 s3.
Proof.
  unfold quiet.
  intros [A1 [A2 [A3 [A4 [A5 [A6 [ws1 [A7 A8]]]]]]]]
         [B1 [B2 [B3 [B4 [B5 [B6 [ws2 [B7 B8]]]]]]]].
  split; [congruence|]. split; [congruence|]. split; [congruence|].
  split; [congruence|]. split; [now rewrite B5|]. split.
  - intros q. apply (samePlayer_trans _ (mem s2 q)); [apply B6 | apply A6].
  - exists (ws1 ++ ws2). split.
    + rewrite B7, A7. now rewrite app_assoc.
    + apply Forall_app. split; [exact A8|]. now rewrite <- A4.
Qed.

(** A step that changes neither the identity of the session nor the
    members of the roster nor the identity and total of a player, and that
    writes at most questions to the host, is quiet. *)
Lemma quiet_step (g g' : Game.t) (m m' : ptr -> Player.t) (w ws : list Write) :
  Game.Id g' = Game.Id g ->
  Game.Quiz g' = Game.Quiz g ->
  Game.Code g' = Game.Code g ->
  Game.Host g' = Game.Host g ->
  Permutation (Game.Players g') (Game.Players g) ->
  (forall q, samePlayer (m' q) (m q)) ->
  Forall (toHost (Game.Host g)) ws ->
  quiet (mkSys g m w) (mkSys g' m' (w ++ ws)).
Proof.
  intros H1 H2 H3 H4 H5 H6 H7. unfold quiet. cbn [game mem sent].
  split; [exact H1|]. split; [exact H2|]. split; [exact H3|].
  split; [exact H4|]. split; [exact H5|]. split; [exact H6|].
  exists ws. split; [reflexivity | exact H7].
Qed.

Lemma questionWrites_toHost (host : Conn) (question : entity.QuizQuestion) :
  Forall (toHost host) (questionWrites host question).
Proof.
  unfold questionWrites.
  destruct (json_Marshal (QuestionShowPacket question)) as [bytes [e|]];
    repeat constructor. now exists bytes.
Qed.

Lemma revealAll_samePlayer (players : list ptr) (m : ptr -> Player.t) (q : ptr) :
  samePlayer (revealAll players m q) (m q).
Proof. rewrite revealAll_at. destruct (_ && _); repeat split. Qed.

Lemma skipAll_samePlayer (players : list ptr) (m : ptr -> Player.t) (q : ptr) :
  samePlayer (skipAll players m q) (m q).
Proof. rewrite skipAll_at. destruct (_ && _); repeat split. Qed.

Lemma resetAll_samePlayer (players : list ptr) (m : ptr -> Player.t) (q : ptr) :
  samePlayer (resetAll players m q) (m q).
Proof. rewrite resetAll_at. destruct (existsb _ _); repeat split. Qed.

Lemma proceeds_Reveal (g : Game.t) (m : ptr -> Player.t) (w : list Write) :
  proceeds Reveal (mkSys g m w).
Proof.
  eexists. split; [apply Reveal_run|]. split; [|cbn; lia].
  rewrite <- (app_nil_r w) at 2.
  apply quiet_step; try reflexivity; [|constructor].
  intros q. apply revealAll_samePlayer.
Qed.

Lemma proceeds_Intermission (g : Game.t) (m : ptr -> Player.t) (w : list Write) :
  sortContract sort_Slice -> proceeds Intermission (mkSys g m w).
Proof.
  intros C. eexists. split; [apply Intermission_run|]. split; [|cbn; lia].
  rewrite <- (app_nil_r w) at 2.
  apply quiet_step; try reflexivity; [|intros q; apply samePlayer_refl|constructor].
  apply (C m (Game.Players g)).
Qed.

Lemma proceeds_End (g : Game.t) (m : ptr -> Player.t) (w : list Write) :
  sortContract sort_Slice -> proceeds End (mkSys g m w).
Proof.
  intros C. destruct (Game.Ended g) eqn:E.
  - exists (mkSys g m w). split; [now apply End_ended|].
    split; [apply quiet_refl | cbn; lia].
  - eexists. split; [apply (End_run g m w E)|]. split; [|cbn; lia].
    rewrite <- (app_nil_r w) at 2.
    apply quiet_step; try reflexivity; [|intros q; apply samePlayer_refl|constructor].
    apply (C m (Game.Players g)).
Qed.

Lemma proceeds_NextQuestion (g : Game.t) (m : ptr -> Player.t) (w : list Write) :
  sortContract sort_Slice ->
  countsQuestions g ->
  proceeds NextQuestion (mkSys g m w).
Proof.
  intros C Q. unfold countsQuestions in Q.
  assert (A : add64 (Game.CurrentQuestion g) 1 = Game.CurrentQuestion g + 1)
    by (apply add64_succ; lia).
  destruct (Z_lt_le_dec (Game.CurrentQuestion g + 1)
              (len (entity.Questions (Game.Quiz g)))) as [H|H].
  - destruct (NextQuestion_run_advance g m w) as [question [_ E]];
      [rewrite A; lia|].
    eexists. split; [exact E|]. split.
    + apply quiet_step; try reflexivity.
      * intros q. apply resetAll_samePlayer.
      * apply questionWrites_toHost.
    + cbn. lia.
  - unfold proceeds.
    rewrite (NextQuestion_ends g m w Q H). cbv zeta.
    eexists. split; [reflexivity|]. cbn [game]. split.
    + rewrite <- (app_nil_r w) at 2.
      destruct (Game.Ended g); apply quiet_step; try reflexivity;
        try (intros q; apply samePlayer_refl); try (now constructor).
      apply (C m (Game.Players g)).
    + destruct (Game.Ended g); cbn; lia.
Qed.

(** Changing the countdown or the phase, or running the first loop of
    [Skip], before a command that proceeds. *)
Lemma proceeds_after (c : M unit) (g g0 : Game.t) (m m0 : ptr -> Player.t)
    (w : list Write) :
  Game.Id g0 = Game.Id g ->
  Game.Quiz g0 = Game.Quiz g ->
  Game.Code g0 = Game.Code g ->
  Game.Host g0 = Game.Host g ->
  Game.Players g0 = Game.Players g ->
  Game.CurrentQuestion g0 = Game.CurrentQuestion g ->
  (forall q, samePlayer (m0 q) (m q)) ->
  proceeds c (mkSys g0 m0 w) ->
  exists s', c (mkSys g0 m0 w) = Ok (tt, s')
             /\ quiet (mkSys g m w) s'
             /\ Game.CurrentQuestion g <= Game.CurrentQuestion (game s')
                <= Game.CurrentQuestion g + 1.
Proof.
  intros H1 H2 H3 H4 H5 H6 H7 [s' [E [Q B]]].
  exists s'. split; [exact E|]. split.
  - apply (quiet_trans _ (mkSys g0 m0 w)); [|exact Q].
    rewrite <- (app_nil_r w) at 2.
    apply quiet_step; try assumption; [now rewrite H5 | constructor].
  - cbn [game] in B. lia.
Qed.

(** X11: the rounds of the timer and the host's commands. On a session
    whose question index is at least -1, [Tick], [Skip], [StartOrSkip],
    [NextQuestion], [Reveal], [Intermission] and [End] all return (none
    panics). None changes the identifier, quiz, join code or host of the
    session, the members of the roster, or the identity, name, connection
    and total of any player; all that is ever written is a question to the
    host; and the question index stays or moves on by one. *)
Theorem commands_proceed (g : Game.t) (m : ptr -> Player.t) (w : list Write) :
  sortContract sort_Slice ->
  countsQuestions g ->
  proceeds Tick (mkSys g m w)
  /\ proceeds Skip (mkSys g m w)
  /\ proceeds StartOrSkip (mkSys g m w)
  /\ proceeds NextQuestion (mkSys g m w)
  /\ proceeds Reveal (mkSys g m w)
  /\ proceeds Intermission (mkSys g m w)
  /\ proceeds End (mkSys g m w).
Proof.
  intros C Q.
  split; [|split; [|split; [|split; [|split; [|split]]]]].
  - unfold proceeds. rewrite Tick_run. cbv zeta.
    set (g1 := Game.set_Time (sub64 (Game.Time g) 1) g).
    destruct (sub64 (Game.Time g) 1 =? 0);
      [destruct (Game.State g)|];
      try (apply (proceeds_after _ g g1 m m w); try reflexivity;
           try (intros q; apply samePlayer_refl);
           first [ apply proceeds_Reveal
                 | now apply proceeds_Intermission
                 | now apply proceeds_NextQuestion ]);
      (eexists; split; [reflexivity|]; split; [|cbn; lia];
       rewrite <- (app_nil_r w) at 2;
       apply quiet_step; try reflexivity;
       [intros q; apply samePlayer_refl | constructor]).
  - unfold proceeds. rewrite Skip_run. cbv zeta.
    set (m1 := skipAll (Game.Players g) m).
    destruct (Game.State g);
      try (apply (proceeds_after _ g g m m1 w); try reflexivity;
           try (intros q; apply skipAll_samePlayer);
           first [ apply proceeds_Reveal
                 | now apply proceeds_Intermission
                 | now apply proceeds_NextQuestion ]);
      (eexists; split; [reflexivity|]; split; [|cbn; lia];
       rewrite <- (app_nil_r w) at 2;
       apply quiet_step; try reflexivity;
       [intros q; apply skipAll_samePlayer | constructor]).
  - unfold proceeds. rewrite StartOrSkip_run.
    destruct (Game.State g);
      try (now apply proceeds_NextQuestion).
    apply (proceeds_after _ g (Game.set_State PlayState g) m m w);
      try reflexivity; [intros q; apply samePlayer_refl|].
    now apply proceeds_NextQuestion.
  - now apply proceeds_NextQuestion.
  - apply proceeds_Reveal.
  - now apply proceeds_Intermission.
  - now apply proceeds_End.
Qed.

(** ** Joining and leaving *)

Lemma OnPlayerJoin_run (id : uuid) (addr : ptr) (name : string) (connection : Conn)
    (g : Game.t) (m : ptr -> Player.t) (w : list Write) :
  OnPlayerJoin id addr name connection (mkSys g m w)
  = Ok (tt, mkSys (Game.set_Players (Game.Players g ++ [addr]) g)
                  (upd m addr (Player.mk id name connection 0 0 false)) w).
Proof. reflexivity. Qed.

Lemma OnPlayerDisconnect_run (player : ptr)
    (g : Game.t) (m : ptr -> Player.t) (w : list Write) :
  OnPlayerDisconnect player (mkSys g m w)
  = Ok (tt, mkSys (Game.set_Players
                     (filter (fun p => negb (Player.Id (m p) =? Player.Id (m player)))
                             (Game.Players g)) g) m w).
Proof. reflexivity. Qed.

Lemma answeredIn_upd_fresh (m : ptr -> Player.t) (addr : ptr) (v : Player.t)
    (players : list ptr) :
  ~ In addr players -> answeredIn (upd m addr v) players = answeredIn m players.
Proof.
  intros H. unfold answeredIn. apply filter_ext_in. intros q Hq.
  rewrite upd_other; [reflexivity|]. intros ->. contradiction.
Qed.

(** X12: a player joins. With [addr] the address of the new struct, not in
    the roster yet, [OnPlayerJoin] returns with the player appended to the
    roster, holding zero points and no answer; every other player and the
    phase, countdown and question index are untouched, and nothing is
    written (neither the phase to the new player nor the notice to the
    host is encoded). The players counted as having answered are the same as
    before, so they are fewer than the roster: the test for an early reveal
    fails until the new player answers. *)
Theorem join_appends_unanswered_player (id : uuid) (addr : ptr) (name : string)
    (connection : Conn) (g : Game.t) (m : ptr -> Player.t) (w : list Write) :
  ~ In addr (Game.Players g) ->
  exists m',
    OnPlayerJoin id addr name connection (mkSys g m w)
    = Ok (tt, mkSys (Game.set_Players (Game.Players g ++ [addr]) g) m' w)
    /\ m' addr = Player.mk id name connection 0 0 false
    /\ (forall q, q <> addr -> m' q = m q)
    /\ answeredIn m' (Game.Players g ++ [addr]) = answeredIn m (Game.Players g)
    /\ len (answeredIn m' (Game.Players g ++ [addr])) < len (Game.Players g ++ [addr]).
Proof.
  intros F. exists (upd m addr (Player.mk id name connection 0 0 false)).
  split; [apply OnPlayerJoin_run|]. split; [apply upd_same|].
  split; [intros q Hq; now apply upd_other|].
  assert (A : answeredIn (upd m addr (Player.mk id name connection 0 0 false))
                (Game.Players g ++ [addr]) = answeredIn m (Game.Players g)).
  { unfold answeredIn. rewrite filter_app. cbn [filter]. rewrite upd_same.
    cbn [Player.Answered]. rewrite app_nil_r.
    now apply answeredIn_upd_fresh. }
  split; [exact A|]. rewrite A. unfold len, answeredIn.
  pose proof (filter_length_le (fun p => Player.Answered (m p)) (Game.Players g)).
  rewrite length_app. cbn [List.length]. lia.
Qed.

Lemma filter_all {A : Type} (f : A -> bool) (l : list A) :
  (forall x, In x l -> f x = true) -> filter f l = l.
Proof.
  induction l as [|x l IH]; intros H; [reflexivity|]. cbn [filter].
  rewrite (H x (or_introl eq_refl)). f_equal. apply IH.
  intros y Hy. apply H. now right.
Qed.

(** X13: a player joins and leaves again. When no player of the roster
    carries the identifier of the newcomer, [OnPlayerJoin] followed by
    [OnPlayerDisconnect] gives back the session as it was, roster order
    included; only the struct of the departed player remains in the
    store. *)
Theorem join_then_disconnect (id : uuid) (addr : ptr) (name : string)
    (connection : Conn) (g : Game.t) (m : ptr -> Player.t) (w : list Write) :
  ~ In addr (Game.Players g) ->
  (forall q, In q (Game.Players g) -> Player.Id (m q) <> id) ->
  (OnPlayerJoin id addr name connection ;; OnPlayerDisconnect addr) (mkSys g m w)
  = Ok (tt, mkSys g (upd m addr (Player.mk id name connection 0 0 false)) w).
Proof.
  intros F U. unfold bind. rewrite OnPlayerJoin_run, OnPlayerDisconnect_run.
  rewrite upd_same. cbn [Game.Players Game.set_Players Player.Id].
  rewrite filter_app. cbn [filter]. rewrite upd_same. cbn [Player.Id].
  rewrite Z.eqb_refl. cbn [negb]. rewrite app_nil_r.
  rewrite filter_all.
  - now destruct g.
  - intros q Hq. rewrite upd_other by (intros ->; contradiction).
    apply negb_true_iff, Z.eqb_neq. now apply U.
Qed.

Lemma filter_idem {A : Type} (f : A -> bool) (l : list A) :
  filter f (filter f l) = filter f l.
Proof.
  apply filter_all. intros x Hx. apply filter_In in Hx. tauto.
Qed.

(** X14: a player leaves. [OnPlayerDisconnect] returns with the roster
    filtered, in its order, down to the players whose identifier differs
    from the departed one's; phase, countdown and question index stay what
    they are (the departure of the last player without an answer does not
    start the reveal), no player struct changes and nothing is written. A
    second call for the same player changes nothing more. *)
Theorem disconnect_removes_by_id (player : ptr)
    (g : Game.t) (m : ptr -> Player.t) (w : list Write) :
  exists roster,
    OnPlayerDisconnect player (mkSys g m w)
    = Ok (tt, mkSys (Game.set_Players roster g) m w)
    /\ roster = filter (fun q => negb (Player.Id (m q) =? Player.Id (m player)))
                       (Game.Players g)
    /\ (forall q, In q roster <->
                  In q (Game.Players g) /\ Player.Id (m q) <> Player.Id (m player))
    /\ ~ In player roster
    /\ OnPlayerDisconnect player (mkSys (Game.set_Players roster g) m w)
       = Ok (tt, mkSys (Game.set_Players roster g) m w).
Proof.
  set (keep := fun q => negb (Player.Id (m q) =? Player.Id (m player))).
  assert (I : forall q, In q (filter keep (Game.Players g)) <->
                        In q (Game.Players g)
                        /\ Player.Id (m q) <> Player.Id (m player)).
  { intros q. rewrite filter_In. subst keep. cbv beta.
    rewrite negb_true_iff, Z.eqb_neq. reflexivity. }
  exists (filter keep (Game.Players g)).
  split; [apply OnPlayerDisconnect_run|]. split; [reflexivity|].
  split; [exact I|]. split.
  { intros H. apply I in H. destruct H as [_ H]. now apply H. }
  rewrite OnPlayerDisconnect_run. cbn [Game.Players Game.set_Players].
  fold keep. rewrite filter_idem. reflexivity.
Qed.

(** ** Skip and timeout out of Intermission *)

(** X15: out of Intermission onto a next question, the host's [Skip] at
    any countdown and the timeout (the tick that finds the countdown of the
    same session at 1 and takes it to zero) leave the same session, the same
    players and the same bytes written, provided the players of the roster
    without an answer have a last award of 0 (as they have after Reveal):
    the answered flags that [Skip] sets are cleared again by
    [NextQuestion]. *)
Theorem skip_and_timeout_from_Intermission
    (g : Game.t) (m : ptr -> Player.t) (w : list Write) :
  Game.State g = IntermissionState ->
  countsQuestions g ->
  Game.CurrentQuestion g + 1 < len (entity.Questions (Game.Quiz g)) ->
  (forall q, In q (Game.Players g) -> Player.Answered (m q) = false ->
             Player.LastAwardedPoints (m q) = 0) ->
  exists g' m1 m2 w',
    Skip (mkSys g m w) = Ok (tt, mkSys g' m1 w')
    /\ Tick (mkSys (Game.set_Time 1 g) m w) = Ok (tt, mkSys g' m2 w')
    /\ Game.State g' = PlayState
    /\ Game.CurrentQuestion g' = Game.CurrentQuestion g + 1
    /\ (forall q, m1 q = m2 q).
Proof.
  intros HS C H Z0. unfold countsQuestions in C.
  assert (A : add64 (Game.CurrentQuestion g) 1 = Game.CurrentQuestion g + 1)
    by (apply add64_succ; lia).
  destruct (NextQuestion_run_advance g (skipAll (Game.Players g) m) w)
    as [question [E1 E2]]; [rewrite A; lia|].
  destruct (NextQuestion_run_advance (Game.set_Time 0 g) m w)
    as [question' [E1' E2']]; [cbn [Game.CurrentQuestion Game.set_Time Game.Quiz];
                               rewrite A; lia|].
  cbn [Game.CurrentQuestion Game.set_Time Game.Quiz] in E1'.
  rewrite E1 in E1'. injection E1' as <-.
  eexists. exists (resetAll (Game.Players g) (skipAll (Game.Players g) m)),
                  (resetAll (Game.Players g) m).
  eexists. split.
  { rewrite Skip_run, HS. cbv zeta. exact E2. }
  split.
  { rewrite Tick_run. cbv zeta. cbn [Game.Time Game.set_Time Game.State].
    rewrite HS. change (sub64 1 1 =? 0) with true. cbv iota.
    change (Game.set_Time (sub64 1 1) (Game.set_Time 1 g))
      with (Game.set_Time 0 g).
    rewrite E2'. reflexivity. }
  split; [reflexivity|]. split; [exact A|].
  intros q. rewrite !resetAll_at, skipAll_at.
  destruct (existsb (Nat.eqb q) (Game.Players g)) eqn:I; [|reflexivity].
  apply existsb_eqb_In in I. cbn [andb].
  destruct (Player.Answered (m q)) eqn:An; cbn [negb]; [reflexivity|].
  unfold Player.set_Answered, Player.set_LastAwardedPoints.
  cbn [Player.Id Player.Name Player.Connection Player.Points
       Player.LastAwardedPoints Player.Answered].
  now rewrite (Z0 q I An).
Qed.

(** ** Tags, and the messages the service accepts *)

(** X16: the two tag tables name the same struct types. A tag the decoder
    accepts (0 or 1) is the tag the encoder gives to a value of the struct
    type that the decoder's pointer points to; a struct value the encoder
    accepts has, for its tag, a decoder entry pointing to the zero value of
    its own type, except the question, whose tag 2 the decoder does not
    know. *)
Theorem tag_tables_agree :
  (forall packetId packet,
      packetIdToPacket packetId = Some (PtrTo packet) ->
      packetToPacketId packet = (packetId, None))
  /\ (forall packet packetId,
         packetToPacketId packet = (packetId, None) ->
         packetIdToPacket packetId
         = match packet with
           | ConnectPacket _ _ => Some (PtrTo (ConnectPacket "" ""))
           | HostGamePacket _ => Some (PtrTo (HostGamePacket ""))
           | _ => None
           end).
Proof.
  split.
  - intros packetId packet H.
    destruct packetId; try discriminate H; injection H as <-; reflexivity.
  - intros packet packetId H.
    destruct packet; try discriminate H; injection H as <-; reflexivity.
Qed.

Lemma setGame_length (i : nat) (g : game_Game) (l : list game_Game) :
  List.length (setGame i g l) = List.length l.
Proof.
  revert i. induction l as [|x l IH]; intros i; [now destruct i|].
  destruct i; cbn [setGame List.length]; [reflexivity|]. now rewrite IH.
Qed.

Lemma setGame_nth (i j : nat) (g : game_Game) (l : list game_Game) :
  nth_error (setGame i g l) j
  = if Nat.eqb j i then match nth_error l j with
                        | Some _ => Some g
                        | None => None
                        end
    else nth_error l j.
Proof.
  revert i j. induction l as [|x l IH]; intros i j.
  - destruct i, j; cbn; try reflexivity; now destruct (Nat.eqb j i).
  - destruct i, j; cbn [setGame nth_error Nat.eqb]; try reflexivity. apply IH.
Qed.

Lemma getGameByCode_first (l : list game_Game) (code : string) :
  match getGameByCode l code with
  | Some i =>
      exists g, nth_error l i = Some g /\ game_Code g = code
                /\ forall j g', (j < i)%nat -> nth_error l j = Some g' ->
                                game_Code g' <> code
  | None => forall g, In g l -> game_Code g <> code
  end.
Proof.
  induction l as [|x l IH]; cbn [getGameByCode]; [intros g []|].
  destruct (String.eqb (game_Code x) code) eqn:E.
  - apply String.eqb_eq in E. exists x. repeat split; [exact E|].
    intros j g' Hj. lia.
  - apply String.eqb_neq in E. destruct (getGameByCode l code) as [i|].
    + destruct IH as [g [H1 [H2 H3]]]. exists g. repeat split; try assumption.
      intros [|j] g' Hj Hg; cbn [nth_error] in Hg.
      * injection Hg as <-. exact E.
      * apply (H3 j g'); [lia | exact Hg].
    + intros g [<-|Hg]; [exact E | now apply IH].
Qed.

(** X17: messages the service drops. A message of fewer than two bytes, a
    message whose first byte is not 0 or 1 (2, the tag of the question,
    included), and a message whose payload [json.Unmarshal] rejects leave
    the state of the service as it is. *)
Theorem malformed_messages_are_dropped (con : Conn)
    (mt : Z) (msg : Bytes) (n : Net) :
  (List.length msg < 2)%nat
  \/ (exists packetId data,
         msg = packetId :: data /\ packetId <> x00 /\ packetId <> x01)
  \/ (exists packetId data packet e,
         msg = packetId :: data
         /\ packetIdToPacket packetId = Some packet
         /\ snd (json_Unmarshal data packet) = Some e) ->
  OnIncomingMessage con mt msg n = Ok n.
Proof.
  intros [H|[[packetId [data [-> [H0 H1]]]]|[packetId [data [packet [e [-> [H1 H2]]]]]]]];
    unfold OnIncomingMessage.
  - replace (len msg <? 2) with true; [reflexivity|].
    symmetry. apply Z.ltb_lt. unfold len. lia.
  - destruct (len (packetId :: data) <? 2); [reflexivity|].
    destruct packetId; try reflexivity; contradiction.
  - destruct (len (packetId :: data) <? 2); [reflexivity|].
    rewrite H1. destruct (json_Unmarshal data packet) as [[p] [e'|]];
      [destruct p; reflexivity | discriminate H2].
Qed.

(** X18: a connect message whose payload decodes to a code and a name. With
    a code that no registered game has, the message is dropped. Otherwise
    it is handed, with the decoded name and the connection, to
    [OnPlayerJoin] of the first game registered with that code, and to no
    other: whatever that call leaves takes the place of that game, and
    every other game keeps its place and its state. *)
Theorem connect_joins_first_game_with_code (con : Conn)
    (mt : Z) (data : Bytes) (data0 : byte) (code name : string) (n : Net) :
  json_Unmarshal (data0 :: data) (PtrTo (ConnectPacket "" ""))
  = (PtrTo (ConnectPacket code name), None) ->
  match getGameByCode (games n) code with
  | None =>
      (forall g, In g (games n) -> game_Code g <> code)
      /\ OnIncomingMessage con mt (x00 :: data0 :: data) n = Ok n
  | Some i =>
      exists g,
        nth_error (games n) i = Some g
        /\ game_Code g = code
        /\ (forall j g', (j < i)%nat -> nth_error (games n) j = Some g' ->
                         game_Code g' <> code)
        /\ OnIncomingMessage con mt (x00 :: data0 :: data) n
           = match game_OnPlayerJoin name con g (netSent n) with
             | Ok (g', w') => Ok (mkNet (setGame i g' (games n)) w')
             | Panic msg => Panic msg
             end
        /\ (forall g' j, j <> i ->
                         nth_error (setGame i g' (games n)) j
                         = nth_error (games n) j)
  end.
Proof.
  intros U. pose proof (getGameByCode_first (games n) code) as F.
  assert (L : (len (x00 :: data0 :: data) <? 2) = false).
  { apply Z.ltb_ge. unfold len. cbn [List.length]. lia. }
  destruct (getGameByCode (games n) code) as [i|] eqn:G.
  - destruct F as [g [H1 [H2 H3]]]. exists g.
    split; [exact H1|]. split; [exact H2|]. split; [exact H3|]. split.
    + unfold OnIncomingMessage. rewrite L. cbn [packetIdToPacket]. rewrite U, G.
      unfold joinAt. rewrite H1. reflexivity.
    + intros g' j N. rewrite setGame_nth.
      apply Nat.eqb_neq in N. now rewrite N.
  - split; [exact F|].
    unfold OnIncomingMessage. rewrite L. cbn [packetIdToPacket]. rewrite U, G.
    reflexivity.
Qed.

(** X19: whatever the message, [OnIncomingMessage] does one of three
    things. It returns with the state of the service as it was; or it
    returns with one game, made by [New], added at the end of the registry
    and every registered game and the writes as they were; or it calls
    [OnPlayerJoin], with the connection of the message, on the first game
    registered with some code, and what that call leaves takes the place of
    that game. It does nothing else to a registered game: answers and the
    host's start and skip commands are not among the messages it routes. *)
Theorem inbound_messages_change_no_game (con : Conn)
    (mt : Z) (msg : Bytes) (n : Net) :
  OnIncomingMessage con mt msg n = Ok n
  \/ (exists quiz,
         OnIncomingMessage con mt msg n
         = Ok (mkNet (games n ++ [game_New quiz con]) (netSent n)))
  \/ (exists code name i g,
         getGameByCode (games n) code = Some i
         /\ nth_error (games n) i = Some g
         /\ OnIncomingMessage con mt msg n
            = match game_OnPlayerJoin name con g (netSent n) with
              | Ok (g', w') => Ok (mkNet (setGame i g' (games n)) w')
              | Panic msg => Panic msg
              end).
Proof.
  unfold OnIncomingMessage.
  destruct (len msg <? 2); [now left|].
  destruct msg as [|packetId data]; [now left|].
  destruct (packetIdToPacket packetId) as [packet|]; [|now left].
  destruct (json_Unmarshal data packet) as [[filled] [e|]];
    [destruct filled; now left|].
  destruct filled; try (now left).
  - (* a connect message *)
    pose proof (getGameByCode_first (games n) Code) as F.
    destruct (getGameByCode (games n) Code) as [i|] eqn:G; [|now left].
    destruct F as [g [H1 _]]. right. right. exists Code, Name, i, g.
    split; [exact G|]. split; [exact H1|].
    unfold joinAt. rewrite H1. reflexivity.
  - (* a host message *)
    destruct (ObjectIDFromHex QuizId) as [oid [e|]]; [now left|].
    destruct (GetQuizById oid) as [[quiz|] [e|]]; try (now left).
    right. left. exists quiz. reflexivity.
Qed.

End Engine.

(** ** The insertion sort meets the contract *)

Lemma sink_perm (less : ptr -> ptr -> bool) (x : ptr) (acc : list ptr) :
  Permutation (sink less x acc) (x :: acc).
Proof.
  induction acc as [|y r IH]; cbn [sink]; [reflexivity|].
  destruct (less x y); [|reflexivity].
  rewrite IH. apply perm_swap.
Qed.

Lemma insertion_fold_perm (less : ptr -> ptr -> bool) (l : list ptr) :
  forall acc, Permutation (fold_left (fun acc x => sink less x acc) l acc) (l ++ acc).
Proof.
  induction l as [|x l IH]; intros acc; cbn [fold_left app]; [reflexivity|].
  rewrite IH, sink_perm. symmetry. apply Permutation_middle.
Qed.

Lemma sink_ascending (m : ptr -> Player.t) (x : ptr) (acc : list ptr) :
  ascending m acc -> ascending m (sink (morePoints m) x acc).
Proof.
  unfold ascending. induction 1 as [|y r S IH F]; cbn [sink].
  - repeat constructor.
  - unfold morePoints at 1. fold (pointsIn m y) (pointsIn m x).
    destruct (pointsIn m y <? pointsIn m x) eqn:E.
    + apply Z.ltb_lt in E. constructor; [exact IH|].
      apply (Permutation_Forall (Permutation_sym (sink_perm _ x r))).
      constructor; [lia | exact F].
    + apply Z.ltb_ge in E. constructor; [now constructor|].
      constructor; [exact E|].
      rewrite Forall_forall in *. intros z Hz. specialize (F z Hz). lia.
Qed.

Lemma insertion_fold_ascending (m : ptr -> Player.t) (l : list ptr) :
  forall acc,
    ascending m acc ->
    ascending m (fold_left (fun acc x => sink (morePoints m) x acc) l acc).
Proof.
  induction l as [|x l IH]; intros acc H; cbn [fold_left]; [exact H|].
  apply IH, sink_ascending, H.
Qed.

Lemma StronglySorted_snoc {A : Type} (R : A -> A -> Prop) (l : list A) (x : A) :
  StronglySorted R l -> Forall (fun y => R y x) l -> StronglySorted R (l ++ [x]).
Proof.
  induction 1 as [|y l S IH F]; intros H; cbn [app].
  - repeat constructor.
  - inversion H as [|? ? Hy Hl]; subst. constructor; [now apply IH|].
    apply Forall_app. split; [exact F | now constructor].
Qed.

Lemma ascending_rev (m : ptr -> Player.t) (l : list ptr) :
  ascending m l -> descending m (rev l).
Proof.
  unfold ascending, descending. induction 1 as [|x l S IH F]; cbn [rev].
  - constructor.
  - apply StronglySorted_snoc; [exact IH|].
    rewrite Forall_forall in *. intros y Hy. apply F. now apply in_rev.
Qed.

Lemma insertionSort_contract : sortContract insertionSort.
Proof.
  intros m l. unfold insertionSort. split.
  - rewrite <- Permutation_rev, insertion_fold_perm. now rewrite app_nil_r.
  - apply ascending_rev, insertion_fold_ascending. constructor.
Qed.

Lemma insertion_fold_ordered (m : ptr -> Player.t) (l : list ptr) :
  forall acc,
    descending m l ->
    (forall y x, In y acc -> In x l -> pointsIn m x <= pointsIn m y) ->
    fold_left (fun acc x => sink (morePoints m) x acc) l acc = rev l ++ acc.
Proof.
  induction l as [|x l IH]; intros acc D B; [reflexivity|].
  inversion D as [|? ? D' F]; subst. rewrite Forall_forall in F.
  cbn [fold_left rev].
  assert (E : sink (morePoints m) x acc = x :: acc).
  { destruct acc as [|y r]; [reflexivity|]. cbn [sink].
    unfold morePoints. fold (pointsIn m y) (pointsIn m x).
    assert (pointsIn m x <= pointsIn m y) by (apply B; now left).
    destruct (pointsIn m y <? pointsIn m x) eqn:E; [|reflexivity].
    apply Z.ltb_lt in E. lia. }
  rewrite E, IH, <- app_assoc; [reflexivity | exact D' |].
  intros y z [<-|Hy] Hz; [now apply F | apply B; [exact Hy | now right]].
Qed.

Lemma insertionSort_keepsOrdered : keepsOrdered insertionSort.
Proof.
  intros m l D. unfold insertionSort.
  rewrite (insertion_fold_ordered m l [] D); [|intros y x []].
  rewrite app_nil_r. apply rev_involutive.
Qed.

(** ** The engine on explicit sessions *)

(** The sessions used below are states of the engine: ann and bob join the
    lobby, the host starts the quiz of two ten-second questions and the
    timer ticks once. The session is then in Play on the first question
    with 9 s left and neither player has answered. *)
Lemma twoPlayersOneTick_playing :
  after (twoPlayersOneTick marshalEmpty writeOk insertionSort) lobby (fun _ s =>
    game s = gamePlaying 9 [0%nat; 1%nat]
    /\ mem s 0%nat = mem2 0%nat
    /\ mem s 1%nat = mem2 1%nat).
Proof. vm_compute. repeat split. Qed.

Lemma onePlayerOneTick_playing :
  after (onePlayerOneTick marshalEmpty writeOk insertionSort) lobby (fun _ s =>
    game s = gamePlaying 9 [0%nat]
    /\ mem s 0%nat = mem2 0%nat).
Proof. vm_compute. repeat split. Qed.

(** C1, on the code: ann and bob play the first question with 9 s left.
    Ann submits the correct choice and is awarded 5144 points; her answered
    flag is set and the session stays in Play, bob not having answered. She
    submits the same choice again: [OnPlayerAnswer] does not look at the
    flag, awards 4144 more (she now counts among those who answered) and
    her total for the question is 9288. *)
Theorem second_answer_scores_again :
  let answer := OnPlayerAnswer marshalEmpty writeOk 0 0%nat in
  after answer (playing 9 [0%nat; 1%nat] mem2) (fun _ s1 =>
    Player.Points (mem s1 0%nat) = 5144
    /\ Player.Answered (mem s1 0%nat) = true
    /\ Game.State (game s1) = PlayState
    /\ after answer s1 (fun _ s2 =>
         Player.LastAwardedPoints (mem s2 0%nat) = 4144
         /\ Player.Points (mem s2 0%nat) = 9288)).
Proof. vm_compute. repeat split. Qed.

(** C2 fails as stated: the sole player answers correctly with 9 s left and
    nobody before; the specification's formula gives 5150, the code awards
    5144. *)
Lemma reward_with_9s_is_not_5150 :
  specReward 0 9 = 5150
  /\ after (OnPlayerAnswer marshalEmpty writeOk 0 0%nat)
       (playing 9 [0%nat] mem2) (fun _ s' =>
         Player.LastAwardedPoints (mem s' 0%nat) = 5144
         /\ Player.LastAwardedPoints (mem s' 0%nat) <> specReward 0 9).
Proof. vm_compute. repeat split. discriminate. Qed.

Lemma reward_of_answer_witness :
  onQuestion (gamePlaying 9 [0%nat])
  /\ - 2 ^ 58 <= Game.Time (gamePlaying 9 [0%nat]) <= 2 ^ 58
  /\ after (OnPlayerAnswer marshalEmpty writeOk 0 0%nat)
       (playing 9 [0%nat] mem2) (fun _ s' =>
         Player.LastAwardedPoints (mem s' 0%nat) = rewardPerSecond 0 9
         /\ Player.Points (mem s' 0%nat) = 5144).
Proof.
  assert (H : onQuestion (gamePlaying 9 [0%nat])) by (unfold onQuestion, len; simpl; lia).
  assert (T : - 2 ^ 58 <= Game.Time (gamePlaying 9 [0%nat]) <= 2 ^ 58)
    by (simpl; lia).
  split; [exact H|]. split; [exact T|].
  destruct (reward_of_answer marshalEmpty writeOk 0 0%nat
              (gamePlaying 9 [0%nat]) mem2 [] H T)
    as [question [s' [E1 [E2 [E3 E4]]]]].
  injection E1 as <-. unfold after, playing. rewrite E2, E3, E4.
  split; reflexivity.
Defined.

(** C3, on the code: a question is broadcast to ann (whose connection is
    broken), bob and the host. The write to ann fails, [BroadcastPacket]
    returns that error, and nothing is written to bob or to the host. *)
Theorem broadcast_stops_at_first_failure :
  after (BroadcastPacket marshalEmpty (writeExcept 10%nat)
           (QuestionShowPacket (entity.mkQuestion 10 [])) true)
    (playing 9 [0%nat; 1%nat] mem2) (fun err s' =>
      err = Some "write: broken pipe"%string
      /\ sent s' = [(10%nat, [x02])]).
Proof. vm_compute. split; reflexivity. Qed.

(** C5 fails as stated: one player who has not answered, one second left.
    After [Skip] the player's answered flag is set, after the timeout it is
    not: the final player states differ. *)
Lemma skip_and_timeout_differ :
  after (Skip marshalEmpty writeOk insertionSort) (playing 1 [0%nat] mem2)
    (fun _ s1 =>
       after (Tick marshalEmpty writeOk insertionSort) (playing 1 [0%nat] mem2)
         (fun _ s2 =>
            Player.Answered (mem s1 0%nat) = true
            /\ Player.Answered (mem s2 0%nat) = false
            /\ mem s1 0%nat <> mem s2 0%nat)).
Proof. vm_compute. repeat split. discriminate. Qed.

Lemma skip_and_timeout_from_Play_witness :
  Game.State (gamePlaying 9 [0%nat; 1%nat]) = PlayState
  /\ exists g',
       Game.State g' = RevealState
       /\ after (Skip marshalEmpty writeOk insertionSort)
            (playing 9 [0%nat; 1%nat] mem2BobAnswered) (fun _ s1 => game s1 = g')
       /\ after (Tick marshalEmpty writeOk insertionSort)
            (playing 1 [0%nat; 1%nat] mem2BobAnswered) (fun _ s2 => game s2 = g').
Proof.
  split; [reflexivity|].
  destruct (skip_and_timeout_from_Play marshalEmpty writeOk insertionSort
              (gamePlaying 9 [0%nat; 1%nat]) mem2BobAnswered [] eq_refl)
    as [g' [m1 [m2 [E1 [E2 [E3 _]]]]]].
  exists g'. split; [exact E3|]. unfold after, playing.
  change (gamePlaying 1 [0%nat; 1%nat])
    with (Game.set_Time 1 (gamePlaying 9 [0%nat; 1%nat])).
  rewrite E1, E2. split; reflexivity.
Defined.

(** C7 fails as stated: ann and bob both have 0 points; the leaderboard
    lists both, and its points do not decrease from the first entry to the
    second. *)
Lemma leaderboard_with_a_tie :
  after (getLeaderboard insertionSort) (playing 9 [0%nat; 1%nat] mem2)
    (fun lb _ =>
       lb = [LeaderboardEntry.mk "ann" 0; LeaderboardEntry.mk "bob" 0]
       /\ ~ strictlyDecreasing lb).
Proof.
  unfold after. cbn. split; [reflexivity|].
  intros H. inversion H as [|? ? _ F]; subst.
  inversion F as [|? ? L _]; subst. cbn in L. lia.
Qed.

Lemma leaderboard_top3_witness :
  sortContract insertionSort
  /\ after (getLeaderboard insertionSort) (playing 9 [0%nat; 1%nat] mem2Scored)
       (fun lb s1 =>
          (List.length lb <= 3)%nat
          /\ nonIncreasing lb
          /\ after (getLeaderboard insertionSort) s1 (fun lb2 s2 =>
               lb2 = lb /\ s2 = s1)).
Proof.
  split; [exact insertionSort_contract|].
  destruct (leaderboard_top3 insertionSort (gamePlaying 9 [0%nat; 1%nat])
              mem2Scored [] insertionSort_contract)
    as [lb [s1 [lb2 [s2 [E1 [L [N [E2 [_ K]]]]]]]]].
  unfold after, playing. rewrite E1. split; [exact L|]. split; [exact N|].
  rewrite E2. exact (K insertionSort_keepsOrdered).
Defined.

(** C8 fails as stated: ann (0 points) joined before bob (100 points); the
    call of [getLeaderboard] leaves bob first in the roster. *)
Lemma getLeaderboard_reorders_roster :
  Game.Players (game (playing 9 [0%nat; 1%nat] mem2Scored)) = [0%nat; 1%nat]
  /\ after (getLeaderboard insertionSort) (playing 9 [0%nat; 1%nat] mem2Scored)
       (fun _ s' =>
          Game.Players (game s') = [1%nat; 0%nat]
          /\ s' <> playing 9 [0%nat; 1%nat] mem2Scored).
Proof.
  split; [reflexivity|]. unfold after. cbn. split; [reflexivity|].
  intros H. apply (f_equal (fun s => Game.Players (game s))) in H.
  discriminate H.
Qed.

Lemma getLeaderboard_sorts_roster_witness :
  sortContract insertionSort
  /\ exists lb roster,
       getLeaderboard insertionSort (playing 9 [0%nat; 1%nat] mem2Scored)
       = Ok (lb, mkSys (Game.set_Players roster (gamePlaying 9 [0%nat; 1%nat]))
                       mem2Scored [])
       /\ Permutation roster [0%nat; 1%nat].
Proof.
  split; [exact insertionSort_contract|].
  destruct (getLeaderboard_sorts_roster insertionSort
              (gamePlaying 9 [0%nat; 1%nat]) mem2Scored []
              insertionSort_contract)
    as [lb [roster [E [P _]]]].
  exists lb, roster. split; [exact E | exact P].
Defined.

Lemma reveal_on_last_answer_witness :
  Game.State (gamePlaying 9 [0%nat; 1%nat]) = PlayState
  /\ onQuestion (gamePlaying 9 [0%nat; 1%nat])
  /\ In 0%nat (Game.Players (gamePlaying 9 [0%nat; 1%nat]))
  /\ after (OnPlayerAnswer marshalEmpty writeOk 1 0%nat)
       (playing 9 [0%nat; 1%nat] mem2BobAnswered) (fun _ s' =>
         Game.State (game s') = RevealState
         /\ Game.Time (game s') = 7
         /\ Player.Answered (mem s' 0%nat) = true
         /\ Player.Answered (mem s' 1%nat) = true).
Proof.
  assert (H : onQuestion (gamePlaying 9 [0%nat; 1%nat]))
    by (unfold onQuestion, len; simpl; lia).
  assert (I : In 0%nat (Game.Players (gamePlaying 9 [0%nat; 1%nat])))
    by (simpl; auto).
  split; [reflexivity|]. split; [exact H|]. split; [exact I|].
  assert (A : forall q, In q (Game.Players (gamePlaying 9 [0%nat; 1%nat])) ->
                        q <> 0%nat -> Player.Answered (mem2BobAnswered q) = true).
  { intros q [<-|[<-|[]]] N; [contradiction | reflexivity]. }
  destruct (reveal_on_last_answer marshalEmpty writeOk 1 0%nat
              (gamePlaying 9 [0%nat; 1%nat]) mem2BobAnswered [] eq_refl H I A)
    as [question [s' [_ [E [S [T [_ [F _]]]]]]]].
  unfold after, playing. rewrite E.
  split; [exact S|]. split; [exact T|].
  split; apply F; simpl; auto.
Defined.

Lemma out_of_range_choice_is_incorrect_witness :
  onQuestion (gamePlaying 9 [0%nat; 1%nat])
  /\ after (isCorrectChoice 2) (playing 9 [0%nat; 1%nat] mem2)
       (fun correct _ => correct = false)
  /\ after (OnPlayerAnswer marshalEmpty writeOk (-1) 0%nat)
       (playing 9 [0%nat; 1%nat] mem2) (fun _ s' =>
         Player.LastAwardedPoints (mem s' 0%nat) = 0
         /\ Player.Points (mem s' 0%nat) = 0).
Proof.
  assert (H : onQuestion (gamePlaying 9 [0%nat; 1%nat]))
    by (unfold onQuestion, len; simpl; lia).
  split; [exact H|]. split.
  - destruct (out_of_range_choice_is_incorrect marshalEmpty writeOk 2 0%nat
                (gamePlaying 9 [0%nat; 1%nat]) mem2 [] H)
      as [question [correct [s' [E1 [E2 [_ R]]]]]].
    injection E1 as <-. unfold after, playing. rewrite E2.
    apply R. right. vm_compute. discriminate.
  - destruct (out_of_range_choice_is_incorrect marshalEmpty writeOk (-1) 0%nat
                (gamePlaying 9 [0%nat; 1%nat]) mem2 [] H)
      as [question [correct [s' [_ [_ [E3 R]]]]]].
    unfold after, playing. rewrite E3.
    destruct R as [_ [R1 R2]]; [left; reflexivity|].
    split; [exact R1 | exact R2].
Defined.

(** ** The further properties on explicit sessions *)

Lemma NextQuestion_presents_witness :
  countsQuestions (gameIntermission [0%nat; 1%nat])
  /\ after (NextQuestion marshalEmpty writeOk insertionSort)
       (mkSys (gameIntermission [0%nat; 1%nat]) mem2BobAnswered [])
       (fun _ s' =>
          Game.CurrentQuestion (game s') = 1
          /\ Game.State (game s') = PlayState
          /\ Player.Answered (mem s' 1%nat) = false
          /\ sent s' = [(99%nat, [x02])]).
Proof.
  assert (C : countsQuestions (gameIntermission [0%nat; 1%nat]))
    by (unfold countsQuestions; simpl; lia).
  split; [exact C|].
  destruct (NextQuestion_presents marshalEmpty writeOk insertionSort
              (gameIntermission [0%nat; 1%nat]) mem2BobAnswered [] C)
    as [question [s' [E1 [E2 [G [A [_ W]]]]]]]; [unfold len; simpl; lia|].
  unfold after. rewrite E2, G, W.
  split; [reflexivity|]. split; [reflexivity|].
  split; [rewrite A; [reflexivity | simpl; auto]|].
  injection E1 as <-. reflexivity.
Defined.

Lemma NextQuestion_past_the_last_witness :
  after (NextQuestion marshalEmpty writeOk insertionSort)
    (mkSys (Game.set_CurrentQuestion 1 (gameIntermission [0%nat; 1%nat])) mem2 [])
    (fun _ s' =>
       Game.Ended (game s') = true
       /\ Game.State (game s') = EndState
       /\ Game.CurrentQuestion (game s') = 2
       /\ sent s' = []).
Proof.
  unfold after.
  rewrite (NextQuestion_past_the_last marshalEmpty writeOk insertionSort
             (Game.set_CurrentQuestion 1 (gameIntermission [0%nat; 1%nat])) mem2 []);
    [repeat split | unfold countsQuestions; simpl; lia | unfold len; simpl; lia].
Defined.

Lemma StartOrSkip_from_lobby_witness :
  after (StartOrSkip marshalEmpty writeOk insertionSort) lobby (fun _ s' =>
    Game.State (game s') = PlayState
    /\ Game.CurrentQuestion (game s') = 0
    /\ Game.Time (game s') = 10
    /\ sent s' = [(99%nat, [x02])]).
Proof.
  unfold after, lobby.
  rewrite (StartOrSkip_from_lobby marshalEmpty writeOk insertionSort
             (newGame 1 "123456" quiz2 99%nat) memEmpty [] eq_refl eq_refl eq_refl).
  repeat split.
Defined.

Lemma getPointsReward_bounds_witness :
  exists reward,
    getPointsReward (playing 9 [0%nat; 1%nat] mem2BobAnswered)
    = Ok (reward, playing 9 [0%nat; 1%nat] mem2BobAnswered)
    /\ 1144 <= reward <= 5144.
Proof.
  destruct (getPointsReward_bounds (gamePlaying 9 [0%nat; 1%nat]) mem2BobAnswered [])
    as [reward [E [B _]]]; [simpl; lia|].
  exists reward. split; [exact E|]. simpl in B. lia.
Defined.

Lemma getPointsReward_monotone_witness :
  exists reward reward',
    getPointsReward (playing 5 [0%nat; 1%nat] mem2BobAnswered)
    = Ok (reward, playing 5 [0%nat; 1%nat] mem2BobAnswered)
    /\ getPointsReward (playing 9 [0%nat; 1%nat] mem2)
       = Ok (reward', playing 9 [0%nat; 1%nat] mem2)
    /\ reward <= reward'.
Proof.
  apply (getPointsReward_monotone (gamePlaying 5 [0%nat; 1%nat])
           (gamePlaying 9 [0%nat; 1%nat]) mem2BobAnswered mem2 [] []);
    try (simpl; lia).
  vm_compute. discriminate.
Defined.

Lemma timer_counts_down_witness :
  timer marshalEmpty writeOk insertionSort 4 (playing 9 [0%nat; 1%nat] mem2)
  = Ok (tt, playing 5 [0%nat; 1%nat] mem2)
  /\ timer marshalEmpty writeOk insertionSort 4 (playing 0 [0%nat; 1%nat] mem2)
     = Ok (tt, playing (-4) [0%nat; 1%nat] mem2).
Proof.
  split.
  - apply (timer_counts_down marshalEmpty writeOk insertionSort 4
             (gamePlaying 9 [0%nat; 1%nat]) mem2 []);
      [reflexivity | left; simpl; lia | simpl; lia | simpl; lia].
  - apply (timer_counts_down marshalEmpty writeOk insertionSort 4
             (gamePlaying 0 [0%nat; 1%nat]) mem2 []);
      [reflexivity | right; simpl; lia | simpl; lia | simpl; lia].
Defined.

Lemma answer_without_question_panics_witness :
  OnPlayerAnswer marshalEmpty writeOk 0 0%nat
    (mkSys (newGame 1 "123456" quiz2 99%nat) mem2 [])
  = Panic "index out of range"%string.
Proof.
  apply (answer_without_question_panics marshalEmpty writeOk 0 0%nat
           (newGame 1 "123456" quiz2 99%nat) mem2 []).
  left. simpl. lia.
Defined.

Lemma answer_waits_for_the_others_witness :
  exists m',
    OnPlayerAnswer marshalEmpty writeOk 0 0%nat (playing 9 [0%nat; 1%nat] mem2)
    = Ok (tt, playing 9 [0%nat; 1%nat] m')
    /\ Player.Answered (m' 0%nat) = true.
Proof.
  destruct (answer_waits_for_the_others marshalEmpty writeOk 0 0%nat 1%nat
              (gamePlaying 9 [0%nat; 1%nat]) mem2 [])
    as [m' [E [A _]]];
    [unfold onQuestion, len; simpl; lia | simpl; auto | discriminate | reflexivity|].
  exists m'. split; [exact E | exact A].
Defined.

Lemma after_mono {A : Type} (c : M A) (s : Sys) (P Q : A -> Sys -> Prop) :
  after c s P -> (forall a s', P a s' -> Q a s') -> after c s Q.
Proof.
  unfold after. destruct (c s) as [[a s']|msg]; [|intros []].
  intros H I. now apply I.
Qed.

Lemma unanswered_question_cycle_witness :
  after (timer marshalEmpty writeOk insertionSort (9 + 7 + 30))
    (playing 9 [0%nat; 1%nat] mem2) (fun _ s3 =>
      Game.State (game s3) = PlayState
      /\ Game.CurrentQuestion (game s3) = 1
      /\ Game.Time (game s3) = 10).
Proof.
  destruct (unanswered_question_cycle marshalEmpty writeOk insertionSort 8
              (gamePlaying 9 [0%nat; 1%nat]) mem2 [])
    as [question [E1 [_ [_ P3]]]];
    [reflexivity | reflexivity | reflexivity | simpl; lia
    | unfold countsQuestions; simpl; lia | unfold len; simpl; lia |].
  injection E1 as <-.
  apply (after_mono _ _ _ _ P3).
  intros _ s3 [A [B [C _]]]. split; [exact A|]. split; [exact B | exact C].
Defined.

Lemma last_question_cycle_witness :
  exists s3,
    timer marshalEmpty writeOk insertionSort (9 + 7 + 30 + 5)
      (mkSys (Game.set_CurrentQuestion 1 (gamePlaying 9 [0%nat; 1%nat])) mem2 [])
    = Ok (tt, s3)
    /\ Game.Ended (game s3) = true
    /\ Game.State (game s3) = EndState.
Proof.
  destruct (last_question_cycle marshalEmpty writeOk insertionSort 8 5
              (Game.set_CurrentQuestion 1 (gamePlaying 9 [0%nat; 1%nat])) mem2 [])
    as [s3 [_ [P [E [S3 _]]]]];
    [reflexivity | reflexivity | reflexivity | simpl; lia
    | unfold countsQuestions; simpl; lia | unfold len; simpl; lia |].
  exists s3. split; [exact P|]. split; [exact E | exact S3].
Defined.

Lemma commands_proceed_witness :
  sortContract insertionSort
  /\ countsQuestions (gamePlaying 1 [0%nat; 1%nat])
  /\ proceeds (Tick marshalEmpty writeOk insertionSort)
       (playing 1 [0%nat; 1%nat] mem2)
  /\ proceeds (Skip marshalEmpty writeOk insertionSort)
       (playing 1 [0%nat; 1%nat] mem2).
Proof.
  assert (C : countsQuestions (gamePlaying 1 [0%nat; 1%nat]))
    by (unfold countsQuestions; simpl; lia).
  split; [exact insertionSort_contract|]. split; [exact C|].
  destruct (commands_proceed marshalEmpty writeOk insertionSort
              (gamePlaying 1 [0%nat; 1%nat]) mem2 [] insertionSort_contract C)
    as [T [K _]].
  split; [exact T | exact K].
Defined.

Lemma join_appends_unanswered_player_witness :
  exists m',
    OnPlayerJoin marshalEmpty writeOk 102 2%nat "cat" 12%nat
      (playing 9 [0%nat; 1%nat] mem2BobAnswered)
    = Ok (tt, playing 9 [0%nat; 1%nat; 2%nat] m')
    /\ m' 2%nat = Player.mk 102 "cat" 12%nat 0 0 false.
Proof.
  destruct (join_appends_unanswered_player marshalEmpty writeOk 102 2%nat "cat"
              12%nat (gamePlaying 9 [0%nat; 1%nat]) mem2BobAnswered [])
    as [m' [E [A _]]].
  - simpl. intros [H|[H|[]]]; discriminate H.
  - exists m'. split; [exact E | exact A].
Defined.

Lemma join_then_disconnect_witness :
  after (bind (OnPlayerJoin marshalEmpty writeOk 102 2%nat "cat" 12%nat)
              (fun _ => OnPlayerDisconnect marshalEmpty writeOk 2%nat))
    (playing 9 [0%nat; 1%nat] mem2) (fun _ s' =>
      game s' = gamePlaying 9 [0%nat; 1%nat] /\ sent s' = []).
Proof.
  unfold after, playing.
  rewrite (join_then_disconnect marshalEmpty writeOk 102 2%nat "cat" 12%nat
             (gamePlaying 9 [0%nat; 1%nat]) mem2 []).
  - split; reflexivity.
  - simpl. intros [H|[H|[]]]; discriminate H.
  - simpl. intros q [<-|[<-|[]]]; discriminate.
Defined.

Lemma skip_and_timeout_from_Intermission_witness :
  exists g' m1 m2 w',
    Skip marshalEmpty writeOk insertionSort
      (mkSys (Game.set_Time 17 (gameIntermission [0%nat; 1%nat])) mem2BobAnswered [])
    = Ok (tt, mkSys g' m1 w')
    /\ Tick marshalEmpty writeOk insertionSort
         (mkSys (gameIntermission [0%nat; 1%nat]) mem2BobAnswered [])
       = Ok (tt, mkSys g' m2 w')
    /\ Game.CurrentQuestion g' = 1
    /\ m1 0%nat = m2 0%nat.
Proof.
  destruct (skip_and_timeout_from_Intermission marshalEmpty writeOk insertionSort
              (Game.set_Time 17 (gameIntermission [0%nat; 1%nat]))
              mem2BobAnswered [])
    as [g' [m1 [m2 [w' [E1 [E2 [_ [C M]]]]]]]];
    [reflexivity | unfold countsQuestions; simpl; lia
    | unfold len; simpl; lia | |].
  - simpl. intros q [<-|[<-|[]]] _; reflexivity.
  - exists g', m1, m2, w'. split; [exact E1|]. split; [exact E2|].
    split; [exact C | apply M].
Defined.

Lemma tag_tables_agree_witness :
  packetToPacketId (HostGamePacket "") = (x01, None)
  /\ packetIdToPacket x02 = None.
Proof.
  destruct tag_tables_agree as [A B]. split.
  - apply (A x01). reflexivity.
  - apply (B (QuestionShowPacket (entity.mkQuestion 10 [])) x02). reflexivity.
Defined.

Lemma malformed_messages_are_dropped_witness :
  OnIncomingMessage gameSample gameCodeSample gameNewSample joinSample
    unmarshalSample objectIdSample quizLookupSample 12%nat 2 [x02; x00; x00]
    (mkNet gameSample [("123456"%string, ["bob"%string])] [])
  = Ok (mkNet gameSample [("123456"%string, ["bob"%string])] []).
Proof.
  apply malformed_messages_are_dropped. right. left.
  exists x02, [x00; x00]. repeat split; discriminate.
Defined.

Lemma connect_joins_first_game_with_code_witness :
  OnIncomingMessage gameSample gameCodeSample gameNewSample joinSample
    unmarshalSample objectIdSample quizLookupSample 12%nat 2 [x00; x00; x00]
    (mkNet gameSample
       [("654321"%string, []); ("123456"%string, ["bob"%string]);
        ("123456"%string, [])] [])
  = Ok (mkNet gameSample
          [("654321"%string, []); ("123456"%string, ["bob"%string; "ann"%string]);
           ("123456"%string, [])] [(12%nat, [x00])]).
Proof.
  pose proof (connect_joins_first_game_with_code gameSample gameCodeSample
                gameNewSample joinSample unmarshalSample objectIdSample
                quizLookupSample 12%nat 2 [x00] x00 "123456" "ann"
                (mkNet gameSample
                   [("654321"%string, []); ("123456"%string, ["bob"%string]);
                    ("123456"%string, [])] [])
                eq_refl) as H.
  cbn [games getGameByCode gameCodeSample fst String.eqb Ascii.eqb Bool.eqb] in H.
  destruct H as [g [E [_ [_ [R _]]]]]. cbn [nth_error] in E. injection E as <-.
  exact R.
Defined.
